(** * bettracker: the statistics engine and the import pipeline

  A shallow embedding of [src/app.py] ([calculate_stats]),
  [src/csv_importer.py] ([BetCSVImporter]) and [src/email_parser.py]
  ([BetEmailParser]), together with executable models of the parts of
  the Python runtime they call (text, binary64 numbers, [re], [csv],
  [datetime.strptime]).

  Conventions.
  - A Python [str] is a [string]; each [ascii] stands for one code point
    below 256.
  - A Python [float] is a primitive binary64 [float]; a Python [int] is
    a [Z].
  - [None] is [None]; an exception that the source catches is an
    explicit error value at the place where it is caught.
  - The clock ([datetime.now()]) and the file system are passed
    explicitly. *)

From Stdlib Require Import ZArith String Ascii List Floats Lia Bool.
From stdpp Require Import gmap strings pretty.

Set Default Proof Using "Type".

(** * Part I: definitions *)

(** ** Python text *)

Module PyStr.
Local Open Scope N_scope.

Definition ord (a : ascii) : N := N_of_ascii a.

(** [str.isspace] on one code point below 256; also what [\s] matches. *)
Definition isspace (a : ascii) : bool :=
  let c := ord a in
  ((9 <=? c) && (c <=? 13)) || ((28 <=? c) && (c <=? 32))
  || (c =? 133) || (c =? 160).

(** What [\d] matches below 256. *)
Definition isdigit (a : ascii) : bool :=
  let c := ord a in (48 <=? c) && (c <=? 57).

Definition isupper (a : ascii) : bool :=
  let c := ord a in
  ((65 <=? c) && (c <=? 90))
  || ((192 <=? c) && (c <=? 222) && negb (c =? 215)).

Definition lower_char (a : ascii) : ascii :=
  if isupper a then ascii_of_N (ord a + 32) else a.

Fixpoint smap (f : ascii -> ascii) (s : string) : string :=
  match s with
  | EmptyString => EmptyString
  | String a t => String (f a) (smap f t)
  end.

Fixpoint sfilter (p : ascii -> bool) (s : string) : string :=
  match s with
  | EmptyString => EmptyString
  | String a t => if p a then String a (sfilter p t) else sfilter p t
  end.

Fixpoint sforall (p : ascii -> bool) (s : string) : bool :=
  match s with
  | EmptyString => true
  | String a t => p a && sforall p t
  end.

(** [s.lower()] *)
Definition lower (s : string) : string := smap lower_char s.

(** [s.lstrip()], [s.rstrip()], [s.strip()] *)
Fixpoint lstrip (s : string) : string :=
  match s with
  | EmptyString => EmptyString
  | String a t => if isspace a then lstrip t else s
  end.

Fixpoint rstrip (s : string) : string :=
  match s with
  | EmptyString => EmptyString
  | String a t =>
      match rstrip t with
      | EmptyString => if isspace a then EmptyString else String a EmptyString
      | t' => String a t'
      end
  end.

Definition strip (s : string) : string := rstrip (lstrip s).

(** [sub in s] *)
Fixpoint contains (sub s : string) : bool :=
  String.prefix sub s ||
  match s with
  | EmptyString => false
  | String _ t => contains sub t
  end.

(** [sep.join(l)] *)
Fixpoint join (sep : string) (l : list string) : string :=
  match l with
  | [] => EmptyString
  | [x] => x
  | x :: l' => x +:+ sep +:+ join sep l'
  end.

(** [s.count(c)] for a one-character [c] *)
Fixpoint count_char (c : ascii) (s : string) : nat :=
  match s with
  | EmptyString => O
  | String a t => (if Ascii.eqb a c then 1 else 0)%nat + count_char c t
  end.

(** [s[:n]] *)
Fixpoint take (n : nat) (s : string) : string :=
  match n, s with
  | S n', String a t => String a (take n' t)
  | _, _ => EmptyString
  end.

(** [s.split(c)] for a one-character separator: never empty. *)
Fixpoint split (c : ascii) (s : string) : list string :=
  match s with
  | EmptyString => [EmptyString]
  | String a t =>
      if Ascii.eqb a c then EmptyString :: split c t
      else match split c t with
           | [] => [String a EmptyString]
           | w :: ws => String a w :: ws
           end
  end.

(** truth value of a [str] *)
Definition truthy (s : string) : bool :=
  match s with EmptyString => false | _ => true end.
End PyStr.

(** ** Python numbers *)

Module PyNum.
Local Open Scope Z_scope.

(** The binary64 nearest to [(-1)^s * n / d], ties to even: what
    [int / int], [float(int)] and [float(str)] all return. *)
Definition float_of_ratio (s : bool) (n d : positive) : float :=
  let '(mz, ez, lz) := SFdiv_core_binary prec emax (Zpos n) 0 (Zpos d) 0 in
  SF2Prim (binary_round_aux prec emax s mz ez lz).

Definition float_of_Z (z : Z) : float :=
  match z with
  | Z0 => 0%float
  | Zpos p => float_of_ratio false p 1
  | Zneg p => float_of_ratio true p 1
  end.

(** truth value of a [float]: false exactly for [0.0] and [-0.0]. *)
Definition float_truthy (f : float) : bool := negb (PrimFloat.eqb f 0).

(** [round(f, ndigits)] for [ndigits >= 0]: the exact value of [f] is
    rounded half-to-even to [ndigits] decimals, and the decimal so
    obtained is converted back to the nearest binary64. *)
Definition round_half_even (n : Z) (d : Z) : Z :=
  let q := n / d in
  let r := n mod d in
  match 2 * r ?= d with
  | Lt => q
  | Gt => q + 1
  | Eq => if Z.even q then q else q + 1
  end.

Definition float_round (f : float) (ndigits : nat) : float :=
  match Prim2SF f with
  | S754_finite s m e =>
      let scale := 10 ^ Z.of_nat ndigits in
      let n :=
        if 0 <=? e then Zpos m * 2 ^ e * scale
        else round_half_even (Zpos m * scale) (2 ^ (- e)) in
      match n, scale with
      | Zpos p, Zpos q => float_of_ratio s p q
      | _, _ => if s then (-0)%float else 0%float
      end
  | _ => f
  end.

(** A number as the statistics hold it: [int] or [float]. *)
Inductive num : Type :=
| Int (z : Z)
| Float (f : float).

Definition to_float (n : num) : float :=
  match n with
  | Int z => float_of_Z z
  | Float f => f
  end.

Definition add (a b : num) : num :=
  match a, b with
  | Int x, Int y => Int (x + y)
  | _, _ => Float (to_float a + to_float b)
  end.

Definition sub (a b : num) : num :=
  match a, b with
  | Int x, Int y => Int (x - y)
  | _, _ => Float (to_float a - to_float b)
  end.

Definition mul (a b : num) : num :=
  match a, b with
  | Int x, Int y => Int (x * y)
  | _, _ => Float (to_float a * to_float b)
  end.

(** [a / b]; [None] is [ZeroDivisionError]. *)
Definition truediv (a b : num) : option num :=
  match a, b with
  | Int x, Int y =>
      match x, y with
      | _, Z0 => None
      | Z0, _ => Some (Float 0)
      | Zpos p, Zpos q | Zneg p, Zneg q => Some (Float (float_of_ratio false p q))
      | Zpos p, Zneg q | Zneg p, Zpos q => Some (Float (float_of_ratio true p q))
      end
  | _, _ =>
      if PrimFloat.eqb (to_float b) 0 then None
      else Some (Float (to_float a / to_float b))
  end.

(** [a > 0] *)
Definition gt0 (a : num) : bool :=
  match a with
  | Int z => 0 <? z
  | Float f => PrimFloat.ltb 0 f
  end.

(** [round(a, ndigits)]: an [int] is returned unchanged. *)
Definition round (a : num) (ndigits : nat) : num :=
  match a with
  | Int z => Int z
  | Float f => Float (float_round f ndigits)
  end.

(** [sum(l)]: starts from the [int] zero and adds from the left. *)
Definition sum (l : list num) : num := fold_left add l (Int 0).

(** [a == b] on numbers *)
Definition eqb (a b : num) : bool :=
  match a, b with
  | Int x, Int y => x =? y
  | _, _ => PrimFloat.eqb (to_float a) (to_float b)
  end.
End PyNum.

(** ** Python regular expressions ([re])

  The patterns of the source are written as abstract syntax; the
  matcher is the backtracking one of [re]: alternatives are tried from
  the left, repetition is greedy, the first match found wins. *)

Module Re.
Import PyStr.
Local Open Scope N_scope.

(** One member of a bracketed set. *)
Inductive item : Type :=
| IChar (a : ascii)
| IRange (lo hi : ascii)
| IDigit          (* \d *)
| ISpace.         (* \s *)

Inductive regex : Type :=
| Empty
| Chr (a : ascii)
| Dot                                  (* any character but a newline *)
| Class (neg : bool) (items : list item)
| Cat (r1 r2 : regex)
| Alt (r1 r2 : regex)
| Star (r : regex)
| Group (i : nat) (r : regex).

Definition Plus (r : regex) : regex := Cat r (Star r).
Definition Opt (r : regex) : regex := Alt r Empty.
Definition Digit : regex := Class false [IDigit].
Definition Space : regex := Class false [ISpace].

Fixpoint Lit (s : string) : regex :=
  match s with
  | EmptyString => Empty
  | String a EmptyString => Chr a
  | String a t => Cat (Chr a) (Lit t)
  end.

Fixpoint Seq (l : list regex) : regex :=
  match l with
  | [] => Empty
  | [r] => r
  | r :: l' => Cat r (Seq l')
  end.

Fixpoint Alts (l : list regex) : regex :=
  match l with
  | [] => Empty
  | [r] => r
  | r :: l' => Alt r (Alts l')
  end.

(** [pattern.lower()] on a pattern made of literals and [.], [*], [|]. *)
Fixpoint lower_pattern (r : regex) : regex :=
  match r with
  | Chr a => Chr (lower_char a)
  | Cat r1 r2 => Cat (lower_pattern r1) (lower_pattern r2)
  | Alt r1 r2 => Alt (lower_pattern r1) (lower_pattern r2)
  | Star r1 => Star (lower_pattern r1)
  | Group i r1 => Group i (lower_pattern r1)
  | _ => r
  end.

(** The upper-case partner of a lower-case code point below 256. *)
Definition upper_partner (a : ascii) : option ascii :=
  let c := ord a in
  if ((97 <=? c) && (c <=? 122))
     || ((224 <=? c) && (c <=? 254) && negb (c =? 247))
  then Some (ascii_of_N (c - 32)) else None.

Definition in_range (lo hi a : ascii) : bool :=
  (ord lo <=? ord a) && (ord a <=? ord hi).

(** Under [re.IGNORECASE] the subject character is lowered and compared
    with the lowered members of the set. *)
Definition item_match (ic : bool) (it : item) (a : ascii) : bool :=
  match it with
  | IChar b =>
      if ic then Ascii.eqb (lower_char a) (lower_char b) else Ascii.eqb a b
  | IRange lo hi =>
      if ic then
        let a' := lower_char a in
        (in_range lo hi a' && Ascii.eqb (lower_char a') a')
        || match upper_partner a' with
           | Some u => in_range lo hi u
           | None => false
           end
      else in_range lo hi a
  | IDigit => isdigit a
  | ISpace => isspace a
  end.

Definition class_match (ic neg : bool) (items : list item) (a : ascii) : bool :=
  xorb neg (existsb (fun it => item_match ic it a) items).

Abbreviation groups := (gmap nat string).

(** Greedy repetition of [body]: as many rounds as possible first, each
    round taking at least one character; [fuel] bounds the rounds. *)
Fixpoint star_loop {A : Type}
    (body : string -> groups -> (string -> groups -> option A) -> option A)
    (k : string -> groups -> option A) (fuel : nat) (s : string) (g : groups)
    : option A :=
  match fuel with
  | O => k s g
  | S fuel' =>
      match body s g
              (fun s' g' =>
                 if (String.length s' <? String.length s)%nat
                 then star_loop body k fuel' s' g' else None) with
      | Some x => Some x
      | None => k s g
      end
  end.

(** [run ic r s g k]: match [r] at the start of [s], then hand what is
    left of [s] and the groups to [k]; when [k] refuses, backtrack. *)
Fixpoint run {A : Type} (ic : bool) (r : regex) (s : string) (g : groups)
    (k : string -> groups -> option A) {struct r} : option A :=
  match r with
  | Empty => k s g
  | Chr b =>
      match s with
      | String a t => if item_match ic (IChar b) a then k t g else None
      | EmptyString => None
      end
  | Dot =>
      match s with
      | String a t => if Ascii.eqb a "010" then None else k t g
      | EmptyString => None
      end
  | Class neg items =>
      match s with
      | String a t => if class_match ic neg items a then k t g else None
      | EmptyString => None
      end
  | Cat r1 r2 => run ic r1 s g (fun s' g' => run ic r2 s' g' k)
  | Alt r1 r2 =>
      match run ic r1 s g k with
      | Some x => Some x
      | None => run ic r2 s g k
      end
  | Star r1 => star_loop (run ic r1) k (String.length s) s g
  | Group i r1 =>
      run ic r1 s g
        (fun s' g' =>
           k s' (<[i := PyStr.take (String.length s - String.length s') s]> g'))
  end.

(** [pattern.match(s)]: the rest of [s] after the match, and the groups. *)
Definition match_ (ic : bool) (r : regex) (s : string) : option (string * groups) :=
  run ic r s ∅ (fun s' g => Some (s', g)).

(** [re.search(pattern, s)]: the groups of the leftmost match. *)
Fixpoint search (ic : bool) (r : regex) (s : string) : option groups :=
  match match_ ic r s with
  | Some (_, g) => Some g
  | None =>
      match s with
      | EmptyString => None
      | String _ t => search ic r t
      end
  end.

(** [re.sub(pattern, repl, s)] with a plain replacement text.  After an
    empty match the next one must advance, as in [re]. *)
Fixpoint sub_go (fuel : nat) (r : regex) (repl : string) (s : string)
    (must_advance : bool) : string :=
  match fuel with
  | O => s
  | S fuel' =>
      match run false r s ∅
              (fun s' _ =>
                 if must_advance && (String.length s' =? String.length s)%nat
                 then None else Some s') with
      | Some s' =>
          repl +:+ sub_go fuel' r repl s' (String.length s' =? String.length s)%nat
      | None =>
          match s with
          | EmptyString => EmptyString
          | String a t => String a (sub_go fuel' r repl t false)
          end
      end
  end.

Definition sub (r : regex) (repl s : string) : string :=
  sub_go (2 * String.length s + 2) r repl s false.

(** [match.groups()] of a pattern with [n] groups. *)
Definition groups_tuple (n : nat) (g : groups) : list (option string) :=
  map (fun i => g !! i) (seq 1 n).

(** The words a pattern can match, whatever the order of the search. *)
Inductive matches (ic : bool) : regex -> string -> Prop :=
| matches_empty : matches ic Empty EmptyString
| matches_chr b a :
    item_match ic (IChar b) a = true -> matches ic (Chr b) (String a EmptyString)
| matches_dot a :
    Ascii.eqb a "010" = false -> matches ic Dot (String a EmptyString)
| matches_class neg items a :
    class_match ic neg items a = true ->
    matches ic (Class neg items) (String a EmptyString)
| matches_cat r1 r2 w1 w2 :
    matches ic r1 w1 -> matches ic r2 w2 -> matches ic (Cat r1 r2) (w1 +:+ w2)
| matches_alt_l r1 r2 w : matches ic r1 w -> matches ic (Alt r1 r2) w
| matches_alt_r r1 r2 w : matches ic r2 w -> matches ic (Alt r1 r2) w
| matches_star_nil r : matches ic (Star r) EmptyString
| matches_star_cons r w1 w2 :
    matches ic r w1 -> matches ic (Star r) w2 -> matches ic (Star r) (w1 +:+ w2)
| matches_group i r w : matches ic r w -> matches ic (Group i r) w.

(** The bodies of the groups numbered [i] in a pattern. *)
Fixpoint bodies (i : nat) (r : regex) : list regex :=
  match r with
  | Cat r1 r2 | Alt r1 r2 => bodies i r1 ++ bodies i r2
  | Star r1 => bodies i r1
  | Group j r1 => (if Nat.eqb i j then [r1] else []) ++ bodies i r1
  | _ => []
  end.
End Re.

(** ** [float(str)] *)

Module PyFloat.
Import PyStr PyNum.
Local Open Scope Z_scope.

Definition digit_value (a : ascii) : Z := Z.of_N (ord a) - 48.

(** The longest prefix of digits, as a number and a count, and the rest. *)
Fixpoint digits (acc : Z) (n : nat) (s : string) : Z * nat * string :=
  match s with
  | String a t =>
      if isdigit a then digits (10 * acc + digit_value a) (S n) t
      else (acc, n, s)
  | EmptyString => (acc, n, s)
  end.

(** PEP 515: an underscore may only stand between two digits; the
    underscores are then dropped.  [None] is a [ValueError]. *)
Fixpoint drop_underscores (prev : option ascii) (s : string) : option string :=
  match s with
  | EmptyString =>
      match prev with
      | Some "_"%char => None
      | _ => Some EmptyString
      end
  | String a t =>
      if Ascii.eqb a "_" then
        match prev with
        | Some p => if isdigit p then drop_underscores (Some a) t else None
        | None => None
        end
      else
        match prev with
        | Some "_"%char =>
            if isdigit a
            then option_map (String a) (drop_underscores (Some a) t)
            else None
        | _ => option_map (String a) (drop_underscores (Some a) t)
        end
  end.

Definition sign_of (s : string) : bool * string :=
  match s with
  | String "-" t => (true, t)
  | String "+" t => (false, t)
  | _ => (false, s)
  end.

(** [e], an optional sign and at least one digit; otherwise no exponent
    is read. *)
Definition exponent (s : string) : Z * string :=
  match s with
  | String a t =>
      if Ascii.eqb (lower_char a) "e" then
        let '(neg, t') := sign_of t in
        let '(e, n, rest) := digits 0 O t' in
        match n with
        | O => (0, s)
        | _ => (if neg then - e else e, rest)
        end
      else (0, s)
  | EmptyString => (0, s)
  end.

(** The binary64 nearest to [(-1)^neg * m * 10^e]. *)
Definition decimal (neg : bool) (m : Z) (e : Z) : float :=
  match m with
  | Zpos p =>
      if 0 <=? e then float_of_ratio neg (p * Z.to_pos (10 ^ e)) 1
      else float_of_ratio neg p (Z.to_pos (10 ^ (- e)))
  | _ => if neg then (-0)%float else 0%float
  end.

(** The blanks [float] drops at both ends: the ASCII ones, and the two
    other blanks below 256, which it first turns into spaces.  The
    separators 28 to 31 are blanks for [str.strip] but not here. *)
Definition float_space (a : ascii) : bool :=
  let c := ord a in
  (((9 <=? c) && (c <=? 13)) || (c =? 32) || (c =? 133) || (c =? 160))%N.

Fixpoint trim_left (s : string) : string :=
  match s with
  | EmptyString => EmptyString
  | String a t => if float_space a then trim_left t else s
  end.

Fixpoint trim_right (s : string) : string :=
  match s with
  | EmptyString => EmptyString
  | String a t =>
      match trim_right t with
      | EmptyString => if float_space a then EmptyString else String a EmptyString
      | t' => String a t'
      end
  end.

(** [float(s)]; [None] is a [ValueError]. *)
Definition float_of_string (s : string) : option float :=
  match drop_underscores None s with
  | None => None
  | Some s1 =>
      let '(neg, body) := sign_of (trim_right (trim_left s1)) in
      let word := lower body in
      if String.eqb word "inf" || String.eqb word "infinity"
      then Some (if neg then neg_infinity else infinity)
      else if String.eqb word "nan" then Some nan
      else
        let '(ip, n1, r1) := digits 0 O body in
        let '(m, n2, r2) :=
          match r1 with
          | String "." t => digits ip O t
          | _ => (ip, O, r1)
          end in
        match (n1 + n2)%nat with
        | O => None
        | _ =>
            let '(e, r3) := exponent r2 in
            match r3 with
            | EmptyString => Some (decimal neg m (e - Z.of_nat n2))
            | _ => None
            end
        end
  end.
End PyFloat.

(** ** [datetime.strptime] and [strftime] for the two formats in use *)

Module DateTime.
Import PyStr Re.
Local Open Scope Z_scope.

Record date : Type := { year : Z; month : Z; day : Z }.

(** The expressions [_strptime] substitutes for [%Y], [%m] and [%d]. *)
Definition re_Y : regex := Seq [Digit; Digit; Digit; Digit].
Definition re_m : regex :=
  Alts [ Cat (Chr "1") (Class false [IRange "0" "2"]);
         Cat (Chr "0") (Class false [IRange "1" "9"]);
         Class false [IRange "1" "9"] ].
Definition re_d : regex :=
  Alts [ Cat (Chr "3") (Class false [IRange "0" "1"]);
         Cat (Class false [IRange "1" "2"]) Digit;
         Cat (Chr "0") (Class false [IRange "1" "9"]);
         Class false [IRange "1" "9"];
         Cat (Chr " ") (Class false [IRange "1" "9"]) ].

(** ['%Y-%m-%d'] and ['%m/%d/%Y']; groups 1, 2, 3 are Y, m, d. *)
Definition fmt_iso : regex :=
  Seq [Group 1 re_Y; Chr "-"; Group 2 re_m; Chr "-"; Group 3 re_d].
Definition fmt_us : regex :=
  Seq [Group 2 re_m; Chr "/"; Group 3 re_d; Chr "/"; Group 1 re_Y].

(** [int(s)] on a captured field: blanks around the digits are ignored. *)
Definition int_of (s : string) : Z :=
  let '(v, _, _) := PyFloat.digits 0 O (strip s) in v.

Definition is_leap (y : Z) : bool :=
  ((y mod 4 =? 0) && negb (y mod 100 =? 0)) || (y mod 400 =? 0).

Definition days_in_month (y m : Z) : Z :=
  if m =? 2 then (if is_leap y then 29 else 28)
  else if (m =? 4) || (m =? 6) || (m =? 9) || (m =? 11) then 30
  else 31.

Definition valid_date (d : date) : bool :=
  (1 <=? year d) && (year d <=? 9999) && (1 <=? month d) && (month d <=? 12)
  && (1 <=? day d) && (day d <=? days_in_month (year d) (month d)).

(** [datetime.strptime(s, fmt)]; [None] is a [ValueError]: no match,
    unconverted data left over, or a day the calendar does not have. *)
Definition strptime (fmt : regex) (s : string) : option date :=
  match match_ true fmt s with
  | Some (EmptyString, g) =>
      match g !! 1%nat, g !! 2%nat, g !! 3%nat with
      | Some y, Some m, Some d =>
          let dt := {| year := int_of y; month := int_of m; day := int_of d |} in
          if valid_date dt then Some dt else None
      | _, _, _ => None
      end
  | _ => None
  end.

(** A non-negative number in decimal, left-padded with zeros to [w]. *)
Definition zero_pad (w : nat) (n : Z) : string :=
  let s := pretty n in
  String.concat EmptyString (repeat "0"%string (w - String.length s)) +:+ s.

(** [d.strftime('%Y-%m-%d')]: the month and the day on two digits, the
    year as the C library prints it, without padding. *)
Definition strftime (d : date) : string :=
  pretty (year d) +:+ "-" +:+ zero_pad 2 (month d) +:+ "-" +:+ zero_pad 2 (day d).
End DateTime.

(** ** [src/app.py]: the statistics aggregator *)

Module App.
Import PyNum.

(** The columns of [Bet] that [calculate_stats] reads. *)
Record Bet : Type := {
  status : string;
  stake : float;
  actual_payout : float
}.

Record Stats : Type := {
  total_bets : num;
  wins : num;
  losses : num;
  pushes : num;
  pending : num;
  win_rate : num;
  total_staked : num;
  total_payout : num;
  profit_loss : num;
  roi : num
}.

(** [len([bet for bet in bets if bet.status == s])] *)
Definition count_status (s : string) (bets : list Bet) : num :=
  Int (Z.of_nat (length (List.filter (fun bet => String.eqb (status bet) s) bets))).

(** [(a / b) * 100]; [None] is [ZeroDivisionError]. *)
Definition percentage (a b : num) : option num :=
  match truediv a b with
  | Some q => Some (mul q (Int 100))
  | None => None
  end.

(** [calculate_stats(bets)]; [None] would be an uncaught exception. *)
Definition calculate_stats (bets : list Bet) : option Stats :=
  match bets with
  | [] =>
      Some {| total_bets := Int 0; wins := Int 0; losses := Int 0;
              pushes := Int 0; pending := Int 0; win_rate := Int 0;
              total_staked := Int 0; total_payout := Int 0;
              profit_loss := Int 0; roi := Int 0 |}
  | _ =>
      let total_bets := Int (Z.of_nat (length bets)) in
      let wins := count_status "won" bets in
      let losses := count_status "lost" bets in
      let pushes := count_status "pushed" bets in
      let pending := count_status "pending" bets in
      win_rate ←
        (if gt0 (add wins losses)
         then percentage wins (add wins losses) else Some (Int 0));
      let total_staked := sum (map (fun bet => Float (stake bet)) bets) in
      let total_payout := sum (map (fun bet => Float (actual_payout bet)) bets) in
      let profit_loss := sub total_payout total_staked in
      roi ←
        (if gt0 total_staked
         then percentage profit_loss total_staked else Some (Int 0));
      Some {| total_bets := total_bets; wins := wins; losses := losses;
              pushes := pushes; pending := pending;
              win_rate := round win_rate 2;
              total_staked := round total_staked 2;
              total_payout := round total_payout 2;
              profit_loss := round profit_loss 2;
              roi := round roi 2 |}
  end.
End App.

(** ** Cell values *)

Module PyVal.
(** What a cell of a [csv.DictReader] row, or a [row.get] default, can
    be: [None] (a short row), text, or an [int]. *)
Inductive value : Type :=
| VNone
| VStr (s : string)
| VInt (z : Z).

(** [str(value)] *)
Definition str (v : value) : string :=
  match v with
  | VNone => "None"
  | VStr s => s
  | VInt z => pretty z
  end.

(** [value is None] *)
Definition is_None (v : value) : bool :=
  match v with VNone => true | _ => false end.

(** [value == ''] *)
Definition is_empty (v : value) : bool :=
  match v with VStr EmptyString => true | _ => false end.
End PyVal.

(** ** Python's [csv] module: writer, sniffer, reader *)

Module Csv.
Import PyStr PyNum PyVal.

Definition CR : ascii := "013".
Definition LF : ascii := "010".
Definition QUOTE : ascii := "034".
Definition CRLF : string := String CR (String LF EmptyString).

(** *** Writing, in the [excel] dialect *)

Definition special (c : ascii) : bool :=
  Ascii.eqb c "," || Ascii.eqb c QUOTE || Ascii.eqb c CR || Ascii.eqb c LF.

Fixpoint any_char (p : ascii -> bool) (s : string) : bool :=
  match s with
  | EmptyString => false
  | String a t => p a || any_char p t
  end.

Fixpoint double_quotes (s : string) : string :=
  match s with
  | EmptyString => EmptyString
  | String a t =>
      if Ascii.eqb a QUOTE then String a (String a (double_quotes t))
      else String a (double_quotes t)
  end.

(** One field under [QUOTE_MINIMAL]; [alone] says the record has no
    other field. *)
Definition write_field (alone : bool) (f : string) : string :=
  if any_char special f || (alone && negb (truthy f))
  then String QUOTE (double_quotes f) +:+ String QUOTE EmptyString
  else f.

(** [writer.writerow(fields)] *)
Definition writerow (fields : list string) : string :=
  let alone := match fields with [_] => true | _ => false end in
  join "," (map (write_field alone) fields) +:+ CRLF.

(** [DictWriter._dict_to_list]; [None] is the [ValueError] raised for a
    key that is not a field name.  A missing key is written empty. *)
Definition dict_to_list (fieldnames : list string) (rowdict : gmap string string)
    : option (list string) :=
  if forallb (fun k => existsb (String.eqb k) fieldnames)
       (map fst (map_to_list rowdict))
  then Some (map (fun k => default EmptyString (rowdict !! k)) fieldnames)
  else None.

(** [writeheader()] followed by [writerows(rows)]: the text written. *)
Fixpoint writerows (fieldnames : list string) (rows : list (gmap string string))
    : option string :=
  match rows with
  | [] => Some EmptyString
  | r :: rows' =>
      fields ← dict_to_list fieldnames r;
      rest ← writerows fieldnames rows';
      Some (writerow fields +:+ rest)
  end.

Definition write_table (fieldnames : list string) (rows : list (gmap string string))
    : option string :=
  body ← writerows fieldnames rows;
  Some (writerow fieldnames +:+ body).

(** *** Sniffing the delimiter *)

(** An insertion-ordered dictionary. *)
Fixpoint dict_set {K V : Type} (eqb : K -> K -> bool) (k : K) (v : V)
    (d : list (K * V)) : list (K * V) :=
  match d with
  | [] => [(k, v)]
  | (k', v') :: d' =>
      if eqb k' k then (k, v) :: d' else (k', v') :: dict_set eqb k v d'
  end.

Fixpoint dict_get {K V : Type} (eqb : K -> K -> bool) (k : K)
    (d : list (K * V)) : option V :=
  match d with
  | [] => None
  | (k', v') :: d' => if eqb k' k then Some v' else dict_get eqb k d'
  end.

(** [[chr(c) for c in range(127)]] *)
Definition ascii_chars : list ascii := map ascii_of_nat (seq 0 127).

Definition frequency_table : Type := list (ascii * list (nat * Z)).
Definition mode_table : Type := list (ascii * (nat * Z)).

(** One line added to the frequency tables. *)
Definition count_line (line : string) (cf : frequency_table) : frequency_table :=
  fold_left
    (fun cf char =>
       let metaFrequency := default [] (dict_get Ascii.eqb char cf) in
       let freq := count_char char line in
       let n := default 0%Z (dict_get Nat.eqb freq metaFrequency) in
       dict_set Ascii.eqb char (dict_set Nat.eqb freq (n + 1)%Z metaFrequency) cf)
    ascii_chars cf.

(** [max(items, key=lambda x: x[1])]: the first item of largest count. *)
Fixpoint max_item (best : nat * Z) (items : list (nat * Z)) : nat * Z :=
  match items with
  | [] => best
  | it :: items' =>
      max_item (if (snd best <? snd it)%Z then it else best) items'
  end.

(** The mode of each character's frequencies, less the rows that
    disagree with it. *)
Definition update_modes (cf : frequency_table) (modes : mode_table) : mode_table :=
  fold_left
    (fun modes '(char, items) =>
       match items with
       | [] => modes
       | [(O, _)] => modes
       | [it] => dict_set Ascii.eqb char it modes
       | it :: items' =>
           let m := max_item it items' in
           let others :=
             fold_left (fun a x => (a + snd x)%Z)
               (List.filter (fun x => negb (Nat.eqb (fst x) (fst m))) items) 0%Z in
           dict_set Ascii.eqb char (fst m, (snd m - others)%Z) modes
       end)
    cf modes.

(** One pass of [for k, v in modeList] at a given consistency. *)
Definition collect (modes : mode_table) (total consistency : float)
    (delims : mode_table) : mode_table :=
  fold_left
    (fun delims '(k, v) =>
       if (0 <? fst v)%nat && (0 <? snd v)%Z
          && PrimFloat.leb consistency (float_of_Z (snd v) / total)
       then dict_set Ascii.eqb k v delims else delims)
    modes delims.

(** [while len(delims) == 0 and consistency >= threshold] *)
Fixpoint consistency_loop (fuel : nat) (modes : mode_table)
    (total consistency : float) (delims : mode_table) : mode_table :=
  match fuel with
  | O => delims
  | S fuel' =>
      match delims with
      | [] =>
          if PrimFloat.leb (float_of_ratio false 9 10) consistency
          then consistency_loop fuel' modes total
                 (consistency - float_of_ratio false 1 100)
                 (collect modes total consistency delims)
          else delims
      | _ => delims
      end
  end.

(** The tuple order used by [items.sort()]. *)
Definition item_le (a b : (nat * Z) * ascii) : bool :=
  let '((f1, c1), k1) := a in
  let '((f2, c2), k2) := b in
  if (f1 <? f2)%nat then true else if (f2 <? f1)%nat then false
  else if (c1 <? c2)%Z then true else if (c2 <? c1)%Z then false
  else (PyStr.ord k1 <=? PyStr.ord k2)%N.

Definition preferred : list ascii := [","%char; "009"%char; ";"%char; " "%char; ":"%char].

Definition chunk (start len : nat) (data : list string) : list string :=
  firstn len (skipn start data).

(** The [while start < len(data)] loop of [_guess_delimiter]; [inl] is
    an early [return], [inr] the candidates left at the end. *)
Fixpoint guess_loop (fuel : nat) (data : list string) (chunkLength : nat)
    (iteration start : nat) (cf : frequency_table) (modes delims : mode_table)
    : ascii + mode_table :=
  match fuel with
  | O => inr delims
  | S fuel' =>
      if (start <? length data)%nat then
        let iteration := S iteration in
        let cf := fold_left (fun cf line => count_line line cf)
                    (chunk start chunkLength data) cf in
        let modes := update_modes cf modes in
        let total :=
          float_of_Z (Z.of_nat (Nat.min (chunkLength * iteration) (length data))) in
        let delims := consistency_loop 128 modes total 1%float delims in
        match delims with
        | [(delim, _)] => inl delim
        | _ =>
            guess_loop fuel' data chunkLength iteration (start + chunkLength)%nat
              cf modes delims
        end
      else inr delims
  end.

(** [_guess_delimiter(data, None)]; [None] is the empty delimiter. *)
Definition _guess_delimiter (sample : string) : option ascii :=
  let data := List.filter truthy (split LF sample) in
  let chunkLength := Nat.min 10 (length data) in
  match guess_loop (S (length data)) data chunkLength 0 0 [] [] [] with
  | inl delim => Some delim
  | inr [] => None
  | inr ((k0, v0) :: delims') =>
      let delims := (k0, v0) :: delims' in
      let has d := existsb (fun kv => Ascii.eqb (fst kv) d) delims in
      match (match delims' with [] => [] | _ => List.filter has preferred end) with
      | d :: _ => Some d
      | [] =>
          Some (snd (fold_left
                       (fun best '(k, v) =>
                          if item_le best (v, k) then (v, k) else best)
                       delims' (v0, k0)))
      end
  end.

Definition has_quote (sample : string) : bool :=
  any_char (fun c => Ascii.eqb c QUOTE || Ascii.eqb c "'") sample.

(** [Sniffer().sniff(sample).delimiter]; [None] is the [csv.Error]
    "Could not determine delimiter".  The four expressions of
    [_guess_quote_and_delimiter] all need a quote character in the
    sample; what they find in a sample that has one is [quoted_guess]. *)
Definition sniff (quoted_guess : string -> option ascii) (sample : string)
    : option ascii :=
  match (if has_quote sample then quoted_guess sample else None) with
  | Some delimiter => Some delimiter
  | None => _guess_delimiter sample
  end.

(** *** Reading *)

(** The lines of a file opened with [newline='']: they end at a line
    feed, a carriage return or both, which they keep. *)
Fixpoint readlines (acc : string) (s : string) : list string :=
  match s with
  | EmptyString => if truthy acc then [acc] else []
  | String a t =>
      if Ascii.eqb a CR then
        match t with
        | String b t' =>
            if Ascii.eqb b LF then (acc +:+ CRLF) :: readlines EmptyString t'
            else (acc +:+ String CR EmptyString) :: readlines EmptyString t
        | EmptyString => [acc +:+ String CR EmptyString]
        end
      else if Ascii.eqb a LF then (acc +:+ String LF EmptyString) :: readlines EmptyString t
      else readlines (acc +:+ String a EmptyString) t
  end.

Inductive state : Type :=
| START_RECORD | START_FIELD | IN_FIELD | IN_QUOTED_FIELD
| QUOTE_IN_QUOTED_FIELD | EAT_CRNL.

(** A character of a line, or the end-of-line mark fed after it. *)
Inductive token : Type :=
| Ch (a : ascii)
| EOL.

Record parser : Type := {
  st : state;
  field : string;
  fields : list string
}.

Definition is_newline (c : token) : bool :=
  match c with
  | Ch a => Ascii.eqb a CR || Ascii.eqb a LF
  | EOL => false
  end.

Definition is_char (x : ascii) (c : token) : bool :=
  match c with
  | Ch a => Ascii.eqb a x
  | EOL => false
  end.

(** The two errors the reader raises as [csv.Error]. *)
Inductive error : Type :=
| FieldLimit
| NewLine.

(** [str(e)] *)
Definition message (e : error) : string :=
  match e with
  | FieldLimit => "field larger than field limit (131072)"
  | NewLine =>
      "new-line character seen in unquoted field - do you need to open the file in universal-newline mode?"
  end.

Inductive result (A : Type) : Type :=
| Ok (a : A)
| Raise (e : error).
Arguments Ok {A} a.
Arguments Raise {A} e.

(** [csv.field_size_limit()] *)
Definition field_limit : N := 131072.

(** [parse_add_char]: a field that has reached the limit takes no more. *)
Definition add_char (c : token) (p : parser) (s : state) : result parser :=
  match c with
  | Ch a =>
      if (field_limit <=? N.of_nat (String.length (field p)))%N
      then Raise FieldLimit
      else Ok {| st := s; field := field p +:+ String a EmptyString;
                 fields := fields p |}
  | EOL => Ok {| st := s; field := field p; fields := fields p |}
  end.

Definition save_field (p : parser) (s : state) : parser :=
  {| st := s; field := EmptyString; fields := fields p ++ [field p] |}.

Definition goto (p : parser) (s : state) : parser :=
  {| st := s; field := field p; fields := fields p |}.

Definition after_newline (c : token) : state :=
  match c with EOL => START_RECORD | _ => EAT_CRNL end.

Definition start_field (delimiter : ascii) (p : parser) (c : token)
    : result parser :=
  if is_newline c || match c with EOL => true | _ => false end
  then Ok (save_field p (after_newline c))
  else if is_char QUOTE c then Ok (goto p IN_QUOTED_FIELD)
  else if is_char delimiter c then Ok (save_field p START_FIELD)
  else add_char c p IN_FIELD.

(** [parse_process_char] for the [excel] dialect with another
    delimiter. *)
Definition process_char (delimiter : ascii) (p : parser) (c : token)
    : result parser :=
  match st p with
  | START_RECORD =>
      match c with
      | EOL => Ok p
      | _ => if is_newline c then Ok (goto p EAT_CRNL)
             else start_field delimiter p c
      end
  | START_FIELD => start_field delimiter p c
  | IN_FIELD =>
      if is_newline c || match c with EOL => true | _ => false end
      then Ok (save_field p (after_newline c))
      else if is_char delimiter c then Ok (save_field p START_FIELD)
      else add_char c p IN_FIELD
  | IN_QUOTED_FIELD =>
      match c with
      | EOL => Ok p
      | _ => if is_char QUOTE c then Ok (goto p QUOTE_IN_QUOTED_FIELD)
             else add_char c p IN_QUOTED_FIELD
      end
  | QUOTE_IN_QUOTED_FIELD =>
      if is_char QUOTE c then add_char c p IN_QUOTED_FIELD
      else if is_char delimiter c then Ok (save_field p START_FIELD)
      else if is_newline c || match c with EOL => true | _ => false end
      then Ok (save_field p (after_newline c))
      else add_char c p IN_FIELD
  | EAT_CRNL =>
      match c with
      | EOL => Ok (goto p START_RECORD)
      | _ => if is_newline c then Ok p else Raise NewLine
      end
  end.

Fixpoint process_line (delimiter : ascii) (p : parser) (line : string)
    : result parser :=
  match line with
  | EmptyString => process_char delimiter p EOL
  | String a t =>
      match process_char delimiter p (Ch a) with
      | Ok p' => process_line delimiter p' t
      | Raise e => Raise e
      end
  end.

Definition fresh : parser :=
  {| st := START_RECORD; field := EmptyString; fields := [] |}.

(** The records [csv.reader] yields from the lines of a file, in order,
    and the error that ends the iteration, if one is raised. *)
Fixpoint read_records (delimiter : ascii) (p : parser) (lines : list string)
    : list (list string) * option error :=
  match lines with
  | [] =>
      match st p with
      | START_RECORD => ([], None)
      | _ => ([fields (save_field p START_RECORD)], None)
      end
  | line :: lines' =>
      match process_line delimiter p line with
      | Raise e => ([], Some e)
      | Ok p' =>
          match st p' with
          | START_RECORD =>
              let '(rest, e) := read_records delimiter fresh lines' in
              (fields p' :: rest, e)
          | _ => read_records delimiter p' lines'
          end
      end
  end.

(** [dict(zip(fieldnames, row))], short rows filled with [None]. *)
Fixpoint zip_row (fieldnames row : list string) (d : gmap string value)
    : gmap string value :=
  match fieldnames, row with
  | [], _ => d
  | k :: ks, [] => zip_row ks [] (<[k := VNone]> d)
  | k :: ks, x :: xs => zip_row ks xs (<[k := VStr x]> d)
  end.

(** What [csv.DictReader(f, delimiter=delimiter)] reads from a file:
    the header, if there is a first record, and the rows in file
    order, blank records skipped.  The key [None]
    that collects the cells beyond the header is left out. *)
Record reader : Type := {
  fieldnames : option (list string);
  rows : list (gmap string value)
}.

(** The reader made of the records read: the first is the header. *)
Definition reader_of (records : list (list string)) : reader :=
  match records with
  | [] => {| fieldnames := None; rows := [] |}
  | header :: body =>
      {| fieldnames := Some header;
         rows :=
           map (fun row => zip_row header row ∅)
             (List.filter
                (fun row => match row with [] => false | _ => true end)
                body) |}
  end.

(** The records of a file, and the error raised on the way, if any. *)
Definition records (delimiter : ascii) (content : string)
    : list (list string) * option error :=
  read_records delimiter fresh (readlines EmptyString content).

(** [csv.DictReader(f, delimiter=delimiter)] read to its end; [None]
    when a record raises a [csv.Error]. *)
Definition DictReader (delimiter : ascii) (content : string) : option reader :=
  match records delimiter content with
  | (read, None) => Some (reader_of read)
  | (_, Some _) => None
  end.
End Csv.

(** ** [src/csv_importer.py]: the CSV importer, rows to records *)

Module CsvImporter.
Import PyStr PyNum PyVal.

Definition required_columns : list string :=
  ["date"; "bet_type"; "sport"; "game_description"; "bet_description";
   "odds"; "stake"; "potential_payout"].
Definition optional_columns : list string := ["status"; "actual_payout"].

(** The bracketed set [[$,\s]]. *)
Definition re_currency : Re.regex :=
  Re.Class false [Re.IChar "$"; Re.IChar ","; Re.ISpace].

(** [_clean_numeric(value)] *)
Definition _clean_numeric (v : value) : option float :=
  if is_None v || is_empty v || String.eqb (lower (str v)) "nan" then None
  else
    let clean_value := Re.sub re_currency "" (str v) in
    PyFloat.float_of_string clean_value.

(** [_clean_text(value)] *)
Definition _clean_text (v : value) : string :=
  if is_None v || String.eqb (lower (str v)) "nan" then ""
  else strip (str v).

(** The dictionary [_process_row] builds; its ten keys are always set. *)
Record bet_data : Type := {
  date : string;
  bet_type : string;
  sport : string;
  game_description : string;
  bet_description : string;
  odds : string;
  stake : float;
  potential_payout : float;
  status : string;
  actual_payout : float
}.

(** truth value of an [Optional[float]] *)
Definition truthy (x : option float) : bool :=
  match x with
  | None => false
  | Some f => float_truthy f
  end.

(** The date column: ISO first, then month/day/year, then today. *)
Definition parse_date (today : string) (date_str : string) : string :=
  match DateTime.strptime DateTime.fmt_iso date_str with
  | Some d => DateTime.strftime d
  | None =>
      match DateTime.strptime DateTime.fmt_us date_str with
      | Some d => DateTime.strftime d
      | None => today
      end
  end.

(** [_process_row(row)].  [today] is [datetime.now().strftime('%Y-%m-%d')].
    A missing key raises [KeyError], which the enclosing [try] turns
    into [None], like the explicit [return None]. *)
Definition _process_row (today : string) (row : gmap string value)
    : option bet_data :=
  date_v ← row !! "date";
  let parsed_date := parse_date today (str date_v) in
  stake_v ← row !! "stake";
  let stake := _clean_numeric stake_v in
  payout_v ← row !! "potential_payout";
  let potential_payout := _clean_numeric payout_v in
  match stake, potential_payout with
  | Some stake_f, Some payout_f =>
      if negb (float_truthy stake_f) || negb (float_truthy payout_f) then None
      else
        bet_type_v ← row !! "bet_type";
        sport_v ← row !! "sport";
        game_v ← row !! "game_description";
        desc_v ← row !! "bet_description";
        odds_v ← row !! "odds";
        let actual := _clean_numeric (default (VInt 0) (row !! "actual_payout")) in
        Some {| date := parsed_date;
                bet_type := _clean_text bet_type_v;
                sport := _clean_text sport_v;
                game_description := _clean_text game_v;
                bet_description := _clean_text desc_v;
                odds := _clean_text odds_v;
                stake := stake_f;
                potential_payout := payout_f;
                status := _clean_text (default (VStr "pending") (row !! "status"));
                actual_payout := if truthy actual then default 0%float actual
                                 else 0%float |}
  | _, _ => None
  end.

(** The values of the result dictionary. *)
Inductive rvalue : Type :=
| RBool (b : bool)
| RNone
| RStr (s : string)
| RBets (l : list bet_data)
| RSkipped (l : list string).

Definition failure (msg : string) : gmap string rvalue :=
  {[ "success" := RBool false; "error" := RStr msg; "bets" := RBets [] ]}.

(** The loop over [enumerate(reader, start=1)]: the records and the
    skip entries so far, then the rest of the rows. *)
Fixpoint process_rows (today : string) (index : nat)
    (rs : list (gmap string value)) (bets : list bet_data)
    (skipped : list string) : list bet_data * list string :=
  match rs with
  | [] => (bets, skipped)
  | row :: rs' =>
      match _process_row today row with
      | Some bet => process_rows today (S index) rs' (bets ++ [bet]) skipped
      | None =>
          process_rows today (S index) rs' bets
            (skipped ++ ["Row " +:+ pretty index +:+ ": Invalid data"])
      end
  end.

(** [[col for col in self.required_columns if col not in fieldnames]] *)
Definition missing_columns (fieldnames : list string) : list string :=
  List.filter (fun col => negb (existsb (String.eqb col) fieldnames))
    required_columns.

(** [_process_csv_reader(reader)] *)
Definition _process_csv_reader (today : string) (rd : Csv.reader)
    : gmap string rvalue :=
  let fieldnames := default [] (Csv.fieldnames rd) in
  let missing_columns := missing_columns fieldnames in
  match missing_columns with
  | _ :: _ =>
      failure ("Missing required columns: " +:+ join ", " missing_columns)
  | [] =>
      let '(bets, skipped) := process_rows today 1 (Csv.rows rd) [] [] in
      {[ "success" := RBool true; "error" := RNone;
         "bets" := RBets bets; "skipped" := RSkipped skipped ]}
  end.

(** The file system: the text of each file, by path. *)
Abbreviation filesystem := (gmap string string).

(** What [_process_csv_reader] comes to when the reader raises [e] after
    the records [read]: the error leaves it, from the header when no
    record was read, else from the loop over the rows; but a header
    that lacks a column has made it return before any row is asked for. *)
Definition interrupted (today : string) (read : list (list string))
    (e : Csv.error) : gmap string rvalue :=
  let rd := Csv.reader_of read in
  match read, missing_columns (default [] (Csv.fieldnames rd)) with
  | _ :: _, _ :: _ => _process_csv_reader today rd
  | _, _ => failure (Csv.message e)
  end.

(** [import_from_csv(file_path)].  Whatever is raised on the way (no
    such file, no delimiter found, a reader error) is caught and
    reported as a failure carrying the message of the exception. *)
Definition import_from_csv (quoted_guess : string -> option ascii)
    (today : string) (fs : filesystem) (file_path : string)
    : gmap string rvalue :=
  match fs !! file_path with
  | None =>
      failure ("[Errno 2] No such file or directory: '" +:+ file_path +:+ "'")
  | Some content =>
      let sample := PyStr.take 1024 content in
      match Csv.sniff quoted_guess sample with
      | None => failure "Could not determine delimiter"
      | Some delimiter =>
          match Csv.records delimiter content with
          | (read, None) => _process_csv_reader today (Csv.reader_of read)
          | (read, Some e) => interrupted today read e
          end
      end
  end.

Definition template_rows : list (gmap string string) :=
  [ list_to_map
      [ ("date", "2024-01-15"); ("bet_type", "spread"); ("sport", "NFL");
        ("game_description", "Chiefs vs Bills");
        ("bet_description", "Chiefs -3.5"); ("odds", "-110");
        ("stake", "25.00"); ("potential_payout", "47.73");
        ("status", "won"); ("actual_payout", "47.73") ];
    list_to_map
      [ ("date", "2024-01-16"); ("bet_type", "moneyline"); ("sport", "NBA");
        ("game_description", "Lakers vs Warriors");
        ("bet_description", "Lakers ML"); ("odds", "+150");
        ("stake", "50.00"); ("potential_payout", "125.00");
        ("status", "pending"); ("actual_payout", "0.00") ] ]%string.

(** [generate_template_csv(file_path)]: the file system afterwards and
    the path returned; [None] is an exception of the writer. *)
Definition generate_template_csv (fs : filesystem) (file_path : string)
    : option (filesystem * string) :=
  let fieldnames := required_columns ++ optional_columns in
  text ← Csv.write_table fieldnames template_rows;
  Some (<[file_path := text]> fs, file_path).
End CsvImporter.

(** ** [src/email_parser.py]: the confirmation-email parser *)

Module EmailParser.
Import PyStr Re.

Inductive sportsbook : Type := fanduel | draftkings | caesars.

(** The key of a sportsbook in [sportsbook_patterns]. *)
Definition name (sb : sportsbook) : string :=
  match sb with
  | fanduel => "fanduel"
  | draftkings => "draftkings"
  | caesars => "caesars"
  end.

Record bet_patterns : Type := {
  game : regex;
  bet_type_pattern : regex;
  odds_pattern : regex;
  stake_pattern : regex;
  potential_payout_pattern : regex
}.

Record config : Type := {
  subject_pattern : regex;
  patterns : bet_patterns
}.

(** [(?:vs\.?|@)] *)
Definition versus : regex := Alt (Cat (Lit "vs") (Opt (Chr "."))) (Chr "@").
(** [[A-Za-z\s]] *)
Definition name_char : regex := Class false [IRange "A" "Z"; IRange "a" "z"; ISpace].
(** [\d+\.?\d*] *)
Definition amount : regex := Seq [Plus Digit; Opt (Chr "."); Star Digit].

(** The five expressions, the same for the three sportsbooks. *)
Definition common_patterns : bet_patterns :=
  {| game :=
       Seq [versus; Star Space;
            Group 1 (Seq [Plus name_char; versus; Star Space; Plus name_char])];
     bet_type_pattern :=
       Group 1 (Alts [Lit "Spread"; Lit "Moneyline"; Lit "Over"; Lit "Under";
                      Lit "Total"; Lit "Parlay"]);
     odds_pattern := Group 1 (Cat (Class false [IChar "+"; IChar "-"]) (Plus Digit));
     stake_pattern := Cat (Chr "$") (Group 1 amount);
     potential_payout_pattern :=
       Alt (Seq [Lit "Win:"; Star Space; Chr "$"; Group 1 amount])
           (Seq [Lit "Payout:"; Star Space; Chr "$"; Group 2 amount]) |}.

(** [X.*bet.*confirmation|Your X bet] *)
Definition subject_for (brand : string) : regex :=
  Alt (Seq [Lit brand; Star Dot; Lit "bet"; Star Dot; Lit "confirmation"])
      (Lit ("Your " +:+ brand +:+ " bet")).

Definition sportsbook_patterns (sb : sportsbook) : config :=
  match sb with
  | fanduel => {| subject_pattern := subject_for "FanDuel"; patterns := common_patterns |}
  | draftkings => {| subject_pattern := subject_for "DraftKings"; patterns := common_patterns |}
  | caesars => {| subject_pattern := subject_for "Caesars"; patterns := common_patterns |}
  end.

(** The keys of [sportsbook_patterns], in the order of the dictionary. *)
Definition sportsbooks : list sportsbook := [fanduel; draftkings; caesars].

(** [_identify_sportsbook(subject, content)] *)
Definition _identify_sportsbook (subject content : string) : option sportsbook :=
  let text := lower (subject +:+ " " +:+ content) in
  match List.find
          (fun sb =>
             bool_decide
               (is_Some (search false
                           (lower_pattern (subject_pattern (sportsbook_patterns sb)))
                           text)))
          sportsbooks with
  | Some sb => Some sb
  | None =>
      if contains "fanduel" text then Some fanduel
      else if contains "draftkings" text then Some draftkings
      else if contains "caesars" text then Some caesars
      else None
  end.

(** The number of groups of a pattern. *)
Fixpoint ngroups (r : regex) : nat :=
  match r with
  | Cat r1 r2 | Alt r1 r2 => Nat.max (ngroups r1) (ngroups r2)
  | Star r1 => ngroups r1
  | Group i r1 => Nat.max i (ngroups r1)
  | _ => O
  end.

(** The first group that took part in the match and is not empty. *)
Fixpoint first_group (l : list (option string)) : option string :=
  match l with
  | [] => None
  | Some w :: l' => if truthy w then Some w else first_group l'
  | None :: l' => first_group l'
  end.

(** [_extract_pattern(text, pattern)]; the empty pattern is [Empty]. *)
Definition _extract_pattern (text : string) (pattern : regex) : string :=
  match pattern with
  | Empty => ""
  | _ =>
      match search true pattern text with
      | Some g =>
          match first_group (groups_tuple (ngroups pattern) g) with
          | Some w => strip w
          | None => ""
          end
      | None => ""
      end
  end.

Definition sports_keywords : list (string * list string) :=
  [ ("NFL", ["nfl"; "football"; "patriots"; "chiefs"; "cowboys"]);
    ("NBA", ["nba"; "basketball"; "lakers"; "warriors"; "celtics"]);
    ("MLB", ["mlb"; "baseball"; "yankees"; "dodgers"; "red sox"]);
    ("NHL", ["nhl"; "hockey"; "rangers"; "bruins"; "penguins"]);
    ("Soccer", ["soccer"; "mls"; "premier league"; "champions league"]);
    ("Tennis", ["tennis"; "atp"; "wta"; "wimbledon"; "us open"]);
    ("Golf", ["golf"; "pga"; "masters"; "open championship"]) ]%string.

(** [_extract_sport(content)] *)
Definition _extract_sport (content : string) : string :=
  let content_lower := lower content in
  match List.find
          (fun '(sport, keywords) =>
             existsb (fun keyword => contains keyword content_lower) keywords)
          sports_keywords with
  | Some (sport, _) => sport
  | None => "Other"
  end.

(** The dictionary [parse_email] builds; its keys are always set. *)
Record bet_data : Type := {
  sportsbook_name : string;
  date : string;
  sport : string;
  bet_type : string;
  game_description : string;
  odds : string;
  stake : string;
  potential_payout : string
}.

(** [[^\d+-]] and [[^\d.]] *)
Definition not_odds_char : regex := Class true [IDigit; IChar "+"; IChar "-"].
Definition not_money_char : regex := Class true [IDigit; IChar "."].

(** [_clean_bet_data(bet_data)] *)
Definition _clean_bet_data (b : bet_data) : bet_data :=
  let clean_money x := if truthy x then sub not_money_char "" x else x in
  {| sportsbook_name := sportsbook_name b;
     date := date b;
     sport := sport b;
     bet_type := bet_type b;
     game_description :=
       if truthy (game_description b)
       then strip (sub (Plus Space) " " (game_description b))
       else game_description b;
     odds := if truthy (odds b) then sub not_odds_char "" (odds b) else odds b;
     stake := clean_money (stake b);
     potential_payout := clean_money (potential_payout b) |}.

(** [_validate_bet_data(bet_data)] *)
Definition _validate_bet_data (b : bet_data) : bool :=
  forallb truthy [stake b; odds b].

(** The dictionary [parse_email] fills in from the text, before it is
    cleaned; [today] is [datetime.now().strftime('%Y-%m-%d')]. *)
Definition extract_bet_data (today : string) (sb : sportsbook)
    (email_content : string) : bet_data :=
  let patterns := patterns (sportsbook_patterns sb) in
  {| sportsbook_name := name sb;
     date := today;
     sport := _extract_sport email_content;
     bet_type := _extract_pattern email_content (bet_type_pattern patterns);
     game_description := _extract_pattern email_content (game patterns);
     odds := _extract_pattern email_content (odds_pattern patterns);
     stake := _extract_pattern email_content (stake_pattern patterns);
     potential_payout :=
       _extract_pattern email_content (potential_payout_pattern patterns) |}.

(** [parse_email(email_content, email_subject)] *)
Definition parse_email (today : string) (email_content email_subject : string)
    : option bet_data :=
  match _identify_sportsbook email_subject email_content with
  | None => None
  | Some sb =>
      let bet_data := extract_bet_data today sb email_content in
      let bet_data := _clean_bet_data bet_data in
      if _validate_bet_data bet_data then Some bet_data else None
  end.
End EmailParser.

(** ** The vocabulary of the properties *)

Section StatisticsTerms.
Import PyNum App.

(** How many records carry exactly the status [s]. *)
Definition occurrences (s : string) (bets : list Bet) : Z :=
  Z.of_nat (count_occ string_dec (map status bets) s).

(** The stakes (or payouts) added up from the left, as Python does. *)
Definition total (l : list float) : num :=
  match l with
  | [] => Int 0
  | _ => Float (fold_left PrimFloat.add l 0%float)
  end.

(** A number with at most two decimals: an [int], a non-finite or zero
    [float], or the binary64 nearest to some [n / 100]. *)
Definition two_decimals (a : num) : Prop :=
  match a with
  | Int _ => True
  | Float f =>
      (exists s, Prim2SF f = S754_zero s) \/ (exists s, Prim2SF f = S754_infinity s)
      \/ Prim2SF f = S754_nan
      \/ exists s n, f = float_of_ratio s n 100
  end.

Definition known_status (s : string) : Prop :=
  s = "won" \/ s = "lost" \/ s = "pushed" \/ s = "pending".

Definition three_bets : list Bet :=
  [ {| status := "won"; stake := 10; actual_payout := 20 |};
    {| status := "lost"; stake := 10; actual_payout := 0 |};
    {| status := "pushed"; stake := 10; actual_payout := 10 |} ].

Definition zero_stats : Stats :=
  {| total_bets := Int 0; wins := Int 0; losses := Int 0; pushes := Int 0;
     pending := Int 0; win_rate := Int 0; total_staked := Int 0;
     total_payout := Int 0; profit_loss := Int 0; roi := Int 0 |}.

(** A single won bet with a negative stake: the total staked is not
    zero, [profit_loss / total_staked * 100] is -100, and the summary
    says [roi = 0]. *)
Definition negative_stake_bets : list Bet :=
  [ {| status := "won"; stake := (-10)%float; actual_payout := 0 |} ].

Definition indicator (s : string) : Z :=
  (if string_dec s "won" then 1 else 0) + (if string_dec s "lost" then 1 else 0)
  + (if string_dec s "pushed" then 1 else 0)
  + (if string_dec s "pending" then 1 else 0).

Definition counted (bets : list Bet) : Z :=
  occurrences "won" bets + occurrences "lost" bets
  + occurrences "pushed" bets + occurrences "pending" bets.

End StatisticsTerms.

Section ImporterRowsTerms.
Import PyStr PyNum PyVal CsvImporter.

(** An [Optional[float]] that is [None] or zero. *)
Definition none_or_zero (x : option float) : Prop :=
  x = None \/ exists f, x = Some f /\ PrimFloat.eqb f 0 = true.

(** The cleaned number under a column of a row, when the key is there. *)
Definition cleaned (row : gmap string value) (col : string) : option float :=
  row !! col ≫= _clean_numeric.

Definition skip_entry (index : nat) : string :=
  "Row " +:+ pretty index +:+ ": Invalid data".

(** The skip entries of the rows that give no record, the rows being
    numbered from [index]. *)
Fixpoint skips (today : string) (index : nat) (rs : list (gmap string value))
    : list string :=
  match rs with
  | [] => []
  | row :: rs' =>
      match _process_row today row with
      | Some _ => skips today (S index) rs'
      | None => skip_entry index :: skips today (S index) rs'
      end
  end.

Definition header_of (rd : Csv.reader) : list string :=
  default [] (Csv.fieldnames rd).

(** Every required column is in the header. *)
Definition has_required (rd : Csv.reader) : bool :=
  forallb (fun col => existsb (String.eqb col) (header_of rd)) required_columns.

(** The required columns the header lacks, in their order. *)
Definition missing (rd : Csv.reader) : list string :=
  List.filter (fun col => negb (existsb (String.eqb col) (header_of rd)))
    required_columns.

End ImporterRowsTerms.

Section ImporterClaimsTerms.
Import PyStr PyNum PyVal CsvImporter.

(** A file with a good row, a zero stake, a stake that is no number and a
    negative stake. *)
Definition mixed_csv : string :=
"date,bet_type,sport,game_description,bet_description,odds,stake,potential_payout
2024-01-15,spread,NFL,Chiefs vs Bills,Chiefs -3.5,-110,$25.00,47.73
bad date,moneyline,NBA,Lakers vs Warriors,Lakers ML,+150,0,125.00
01/17/2024,parlay,NHL,Rangers vs Bruins,Rangers ML,+200,abc,10
01/18/2024,total,NBA,Lakers vs Celtics,Over 210,,-5,-3
".

(** The same header without its [odds] column. *)
Definition no_odds_csv : string :=
"date,bet_type,sport,game_description,bet_description,stake,potential_payout
2024-01-15,spread,NFL,Chiefs vs Bills,Chiefs -3.5,25.00,47.73
".

(** A full header, a good row, and a row of one cell. *)
Definition short_row_csv : string :=
"date,bet_type,sport,game_description,bet_description,odds,stake,potential_payout
2024-01-15,spread,NFL,Chiefs vs Bills,Chiefs -3.5,-110,$25.00,47.73
garbage
".

(** The same file without its last row. *)
Definition good_row_csv : string :=
"date,bet_type,sport,game_description,bet_description,odds,stake,potential_payout
2024-01-15,spread,NFL,Chiefs vs Bills,Chiefs -3.5,-110,$25.00,47.73
".

Definition good_row_bet : bet_data :=
  {| date := "2024-01-15"; bet_type := "spread"; sport := "NFL";
     game_description := "Chiefs vs Bills"; bet_description := "Chiefs -3.5";
     odds := "-110"; stake := 25;
     potential_payout := PyNum.float_of_ratio false 4773 100;
     status := "pending"; actual_payout := 0 |}.

Definition no_quotes : string -> option ascii := fun _ => None.

Definition mixed_reader : Csv.reader :=
default {| Csv.fieldnames := None; Csv.rows := [] |} (Csv.DictReader "," mixed_csv).

Definition no_odds_reader : Csv.reader :=
default {| Csv.fieldnames := None; Csv.rows := [] |} (Csv.DictReader "," no_odds_csv).

End ImporterClaimsTerms.

Section ImporterDatesTerms.
Import PyStr PyNum PyVal CsvImporter.

Definition template_text : string :=
"date,bet_type,sport,game_description,bet_description,odds,stake,potential_payout,status,actual_payout"
+:+ Csv.CRLF +:+
"2024-01-15,spread,NFL,Chiefs vs Bills,Chiefs -3.5,-110,25.00,47.73,won,47.73"
+:+ Csv.CRLF +:+
"2024-01-16,moneyline,NBA,Lakers vs Warriors,Lakers ML,+150,50.00,125.00,pending,0.00"
+:+ Csv.CRLF.

Definition template_bets : list bet_data :=
[ {| date := "2024-01-15"; bet_type := "spread"; sport := "NFL";
     game_description := "Chiefs vs Bills"; bet_description := "Chiefs -3.5";
     odds := "-110"; stake := 25;
     potential_payout := PyNum.float_of_ratio false 4773 100;
     status := "won"; actual_payout := PyNum.float_of_ratio false 4773 100 |};
  {| date := "2024-01-16"; bet_type := "moneyline"; sport := "NBA";
     game_description := "Lakers vs Warriors"; bet_description := "Lakers ML";
     odds := "+150"; stake := 50; potential_payout := 125;
     status := "pending"; actual_payout := 0 |} ].

End ImporterDatesTerms.

Section MatcherTerms.
Import PyStr Re.

(** What the groups hold after a match: what they held before, or a word
    matched by one of the bodies of that group in [r]. *)
Definition captured (ic : bool) (r : regex) (g g' : groups) : Prop :=
  forall i u, g' !! i = Some u ->
    g !! i = Some u \/ exists body, In body (bodies i r) /\ matches ic body u.

End MatcherTerms.

Section SubstitutionsTerms.
Import PyStr Re.

(** A character that is neither [$], [,] nor blank. *)
Definition undecorated (a : ascii) : bool :=
  negb (Ascii.eqb a "$" || Ascii.eqb a "," || isspace a).

Definition starts_space (s : string) : bool :=
  match s with
  | String a _ => isspace a
  | EmptyString => false
  end.

(** Every blank is a single space between two other characters or at an
    end: no run of blanks, no tab, no line break. *)
Fixpoint single_spaced (s : string) : bool :=
  match s with
  | EmptyString => true
  | String a t =>
      (if isspace a then Ascii.eqb a " " && negb (starts_space t) else true)
      && single_spaced t
  end.

Fixpoint ends_space (s : string) : bool :=
  match s with
  | EmptyString => false
  | String a EmptyString => isspace a
  | String _ t => ends_space t
  end.

(** A sign followed by one digit or more. *)
Definition signed_digits (s : string) : Prop :=
  exists c t, s = String c t /\ (c = "+"%char \/ c = "-"%char)
              /\ t <> EmptyString /\ sforall isdigit t = true.

Definition money_char (a : ascii) : bool := isdigit a || Ascii.eqb a ".".
Definition odds_char (a : ascii) : bool :=
  isdigit a || Ascii.eqb a "+" || Ascii.eqb a "-".

End SubstitutionsTerms.

Section EmailClaimsTerms.
Import PyStr PyNum PyVal Re EmailParser.

(** The confirmation used by the parser's own example. *)
Definition sample_email : string :=
"
    Your FanDuel bet confirmation

    Game: Chiefs vs Bills
    Bet: Chiefs -3.5 (Spread)
    Odds: -110
    Stake: $25.00
    Potential Win: $22.73
    Total Payout: $47.73

    Good luck!
    ".

Definition sample_bet : bet_data :=
  {| sportsbook_name := "fanduel"; date := "2026-11-05"; sport := "NFL";
     bet_type := "Spread"; game_description := ""; odds := "-3";
     stake := "25.00"; potential_payout := "22.73" |}.

(** A recognised sportsbook, a game, odds, and a stake of zero. *)
Definition zero_stake_email : string :=
  "DraftKings: Lakers vs  Celtics @ home tonight +150 risk $0 Win: $0".

End EmailClaimsTerms.

(** * Part II: properties *)

(** ** Statistics *)

Section Statistics.
Import PyNum App.
Local Open Scope Z_scope.

Lemma count_status_occurrences s bets :
  count_status s bets = Int (occurrences s bets).
Proof.
  unfold count_status, occurrences. do 2 f_equal.
  induction bets as [|b bets IH]; [reflexivity|].
  cbn [map count_occ List.filter].
  destruct (string_dec (status b) s) as [E|E].
  - apply String.eqb_eq in E. rewrite E. cbn [length]. now rewrite IH.
  - apply String.eqb_neq in E. rewrite E. exact IH.
Qed.

Lemma occurrences_nonneg s bets : 0 <= occurrences s bets.
Proof. unfold occurrences. lia. Qed.

Lemma fold_add_float (l : list float) (f : float) :
  fold_left add (map Float l) (Float f) = Float (fold_left PrimFloat.add l f).
Proof.
  revert f. induction l as [|x l IH]; intros f; simpl; [reflexivity|].
  apply IH.
Qed.

Lemma sum_floats (l : list float) : sum (map Float l) = total l.
Proof.
  destruct l as [|x l]; [reflexivity|].
  unfold sum, total. cbn [map fold_left].
  change (add (Int 0) (Float x)) with (Float (0 + x)%float).
  apply fold_add_float.
Qed.

Lemma truediv_int_defined (x y : Z) :
  y <> 0 -> exists q, truediv (Int x) (Int y) = Some (Float q).
Proof.
  intros Hy. destruct x, y; cbn [truediv]; try congruence; eauto.
Qed.

Lemma float_gt0_nonzero (f : float) :
  PrimFloat.ltb 0 f = true -> PrimFloat.eqb f 0 = false.
Proof.
  rewrite FloatAxioms.ltb_spec, FloatAxioms.eqb_spec.
  change (Prim2SF 0) with (S754_zero false).
  destruct (Prim2SF f) as [s|s| |s m e]; simpl; try discriminate.
  all: destruct s; simpl; try discriminate; reflexivity.
Qed.

Lemma truediv_float_defined (a : num) (f : float) :
  gt0 (Float f) = true ->
  truediv a (Float f) = Some (Float (to_float a / f)).
Proof.
  intros H. apply float_gt0_nonzero in H.
  destruct a; cbn [truediv to_float]; now rewrite H.
Qed.

Lemma float_round_two_decimals (f : float) : two_decimals (Float (float_round f 2)).
Proof.
  unfold two_decimals, float_round.
  destruct (Prim2SF f) as [s|s| |s m e] eqn:E; eauto.
  change (10 ^ Z.of_nat 2) with 100.
  match goal with |- context [match ?n with Z0 => _ | Zpos _ => _ | Zneg _ => _ end] =>
    destruct n end.
  - left. destruct s; [exists true | exists false]; reflexivity.
  - do 3 right. eauto.
  - left. destruct s; [exists true | exists false]; reflexivity.
Qed.

Lemma round_two_decimals (a : num) : two_decimals (round a 2).
Proof. destruct a; [exact I | apply float_round_two_decimals]. Qed.

(** The summary of any list, field by field. *)
Lemma calculate_stats_fields (bets : list Bet) :
  let w := occurrences "won" bets in
  let l := occurrences "lost" bets in
  let staked := total (map stake bets) in
  let payout := total (map actual_payout bets) in
  exists st,
    calculate_stats bets = Some st /\
    total_bets st = Int (Z.of_nat (length bets)) /\
    wins st = Int w /\ losses st = Int l /\
    pushes st = Int (occurrences "pushed" bets) /\
    pending st = Int (occurrences "pending" bets) /\
    (if w + l =? 0 then win_rate st = Int 0
     else exists q, truediv (Int w) (Int (w + l)) = Some q /\
                    win_rate st = round (mul q (Int 100)) 2) /\
    total_staked st = round staked 2 /\
    total_payout st = round payout 2 /\
    profit_loss st = round (sub payout staked) 2 /\
    (if gt0 staked
     then exists q, truediv (sub payout staked) staked = Some q /\
                    roi st = round (mul q (Int 100)) 2
     else roi st = Int 0) /\
    two_decimals (win_rate st) /\ two_decimals (total_staked st) /\
    two_decimals (total_payout st) /\ two_decimals (profit_loss st) /\
    two_decimals (roi st).
Proof.
  intros w l staked payout.
  destruct bets as [|b bets].
  { exists zero_stats. cbn. repeat split; reflexivity. }
  set (bs := b :: bets) in *.
  assert (Hw : 0 <= w) by apply occurrences_nonneg.
  assert (Hl : 0 <= l) by apply occurrences_nonneg.
  unfold calculate_stats. fold bs.
  rewrite !count_status_occurrences. fold w l.
  rewrite <- (map_map stake Float bs), <- (map_map actual_payout Float bs).
  rewrite !sum_floats. fold staked payout.
  change (add (Int w) (Int l)) with (Int (w + l)).
  change (gt0 (Int (w + l))) with (0 <? w + l).
  assert (Hwr : exists wr,
    (if 0 <? w + l then percentage (Int w) (Int (w + l)) else Some (Int 0)) = Some wr /\
    (if w + l =? 0 then round wr 2 = Int 0
     else exists q, truediv (Int w) (Int (w + l)) = Some q /\
                    round wr 2 = round (mul q (Int 100)) 2)).
  { destruct (Z.ltb_spec 0 (w + l)) as [Hp|Hp].
    - destruct (truediv_int_defined w (w + l)) as [q Hq]; [lia|].
      exists (mul (Float q) (Int 100)). unfold percentage. rewrite Hq.
      split; [reflexivity|].
      destruct (Z.eqb_spec (w + l) 0); [lia|]. eauto.
    - exists (Int 0). split; [reflexivity|].
      destruct (Z.eqb_spec (w + l) 0); [reflexivity|lia]. }
  destruct Hwr as (wr & -> & Hwr).
  assert (Hroi : exists r,
    (if gt0 staked then percentage (sub payout staked) staked else Some (Int 0)) = Some r /\
    (if gt0 staked
     then exists q, truediv (sub payout staked) staked = Some q /\
                    round r 2 = round (mul q (Int 100)) 2
     else round r 2 = Int 0)).
  { destruct (gt0 staked) eqn:G.
    - destruct staked as [z|f] eqn:Es.
      + unfold staked, total in Es. simpl in Es. discriminate.
      + unfold percentage. rewrite (truediv_float_defined _ f G). eauto.
    - exists (Int 0). split; reflexivity. }
  destruct Hroi as (r & -> & Hroi).
  eexists. split; [reflexivity|]. cbn [total_bets wins losses pushes pending
    win_rate total_staked total_payout profit_loss roi].
  repeat split; try reflexivity; try assumption; try apply round_two_decimals.
Qed.

Lemma calculate_stats_three_bets :
  calculate_stats three_bets =
  Some {| total_bets := Int 3; wins := Int 1; losses := Int 1; pushes := Int 1;
          pending := Int 0; win_rate := Float 50; total_staked := Float 30;
          total_payout := Float 30; profit_loss := Float 0; roi := Float 0 |}.
Proof. vm_compute. reflexivity. Qed.

Lemma calculate_stats_empty : calculate_stats [] = Some zero_stats.
Proof. reflexivity. Qed.

(** C1 (as amended): for every list of bets [calculate_stats] returns a
    summary whose [total_bets] is the length of the list, whose four
    counters count the records by status, whose [win_rate] is
    [wins / (wins + losses) * 100] (0 when there is no decided bet),
    whose [total_staked] and [total_payout] are the sums of the stakes
    and of the actual payouts, whose [profit_loss] is their difference
    and whose [roi] is [profit_loss / total_staked * 100] when
    [total_staked > 0] and 0 otherwise; the five amounts are rounded to
    two decimals.  The three-record example gives 3, 1, 1, 1, 50.0, 30,
    30, 0, 0.0 and the empty list gives the all-zero summary. *)
Theorem calculate_stats_summary :
  (forall bets : list Bet,
     let w := occurrences "won" bets in
     let l := occurrences "lost" bets in
     let staked := total (map stake bets) in
     let payout := total (map actual_payout bets) in
     exists st,
       calculate_stats bets = Some st /\
       total_bets st = Int (Z.of_nat (length bets)) /\
       wins st = Int w /\ losses st = Int l /\
       pushes st = Int (occurrences "pushed" bets) /\
       pending st = Int (occurrences "pending" bets) /\
       (if w + l =? 0 then win_rate st = Int 0
        else exists q, truediv (Int w) (Int (w + l)) = Some q /\
                       win_rate st = round (mul q (Int 100)) 2) /\
       total_staked st = round staked 2 /\
       total_payout st = round payout 2 /\
       profit_loss st = round (sub payout staked) 2 /\
       (if gt0 staked
        then exists q, truediv (sub payout staked) staked = Some q /\
                       roi st = round (mul q (Int 100)) 2
        else roi st = Int 0) /\
       two_decimals (win_rate st) /\ two_decimals (total_staked st) /\
       two_decimals (total_payout st) /\ two_decimals (profit_loss st) /\
       two_decimals (roi st)) /\
  calculate_stats three_bets =
    Some {| total_bets := Int 3; wins := Int 1; losses := Int 1; pushes := Int 1;
            pending := Int 0; win_rate := Float 50; total_staked := Float 30;
            total_payout := Float 30; profit_loss := Float 0; roi := Float 0 |} /\
  calculate_stats [] = Some zero_stats.
Proof.
  split; [exact calculate_stats_fields|].
  split; [exact calculate_stats_three_bets | exact calculate_stats_empty].
Qed.

Lemma calculate_stats_roi_negative_total :
  exists st,
    calculate_stats negative_stake_bets = Some st /\
    total_staked st = Float (-10) /\
    profit_loss st = Float 10 /\
    eqb (total_staked st) (Int 0) = false /\
    percentage (profit_loss st) (total_staked st) = Some (Float (-100)) /\
    roi st = Int 0 /\
    eqb (roi st) (Float (-100)) = false.
Proof.
  eexists. split; [vm_compute; reflexivity|].
  repeat split; vm_compute; reflexivity.
Qed.

(** *** The four counters *)

Lemma indicator_known s :
  (indicator s = 1 <-> known_status s) /\ (indicator s = 0 \/ indicator s = 1).
Proof.
  unfold indicator, known_status.
  destruct (string_dec s "won") as [->|Hw]; [cbn; intuition|].
  destruct (string_dec s "lost") as [->|Hl]; [cbn; intuition|].
  destruct (string_dec s "pushed") as [->|Hp]; [cbn; intuition|].
  destruct (string_dec s "pending") as [->|Hq]; [cbn; intuition|].
  cbn. intuition; discriminate.
Qed.

Lemma occurrences_cons s b bets :
  occurrences s (b :: bets) =
  (if string_dec (status b) s then 1 else 0) + occurrences s bets.
Proof.
  unfold occurrences. cbn [map count_occ].
  destruct (string_dec (status b) s); lia.
Qed.

Lemma counted_cons b bets :
  counted (b :: bets) = indicator (status b) + counted bets.
Proof. unfold counted, indicator. rewrite !occurrences_cons. lia. Qed.

Lemma counted_bound bets :
  counted bets <= Z.of_nat (length bets) /\
  (counted bets = Z.of_nat (length bets) <->
   Forall (fun b => known_status (status b)) bets).
Proof.
  induction bets as [|b bets [IHle IHiff]].
  - split; [unfold counted, occurrences; cbn; lia|].
    split; [constructor | reflexivity].
  - rewrite counted_cons. cbn [length]. rewrite Nat2Z.inj_succ.
    destruct (indicator_known (status b)) as [Hk Hr].
    split; [lia|]. rewrite Forall_cons_iff, <- Hk, <- IHiff. lia.
Qed.

(** C10: the four counters count by exact, case-sensitive equality with
    ['won'], ['lost'], ['pushed'] and ['pending']; a record with another
    status is counted in [total_bets] and in the two sums and in no
    counter, so the counters add up to [total_bets] exactly when every
    status is one of the four. *)
Theorem calculate_stats_counters (bets : list Bet) :
  exists st,
    calculate_stats bets = Some st /\
    total_bets st = Int (Z.of_nat (length bets)) /\
    wins st = Int (occurrences "won" bets) /\
    losses st = Int (occurrences "lost" bets) /\
    pushes st = Int (occurrences "pushed" bets) /\
    pending st = Int (occurrences "pending" bets) /\
    total_staked st = round (total (map stake bets)) 2 /\
    total_payout st = round (total (map actual_payout bets)) 2 /\
    (add (add (add (wins st) (losses st)) (pushes st)) (pending st) = total_bets st
     <-> Forall (fun b => known_status (status b)) bets).
Proof.
  destruct (calculate_stats_fields bets)
    as (st & E & Ht & Hw & Hl & Hp & Hq & _ & Hs & Hy & _).
  exists st. repeat (split; [assumption|]).
  rewrite Ht, Hw, Hl, Hp, Hq. cbn [add].
  destruct (counted_bound bets) as [_ Hiff]. rewrite <- Hiff.
  unfold counted. split; [intros [= H]|intros H]; congruence.
Qed.

(** A status that differs only by case is in no counter. *)
Lemma calculate_stats_capitalised_status :
  calculate_stats [ {| status := "Won"; stake := 10; actual_payout := 20 |} ] =
  Some {| total_bets := Int 1; wins := Int 0; losses := Int 0; pushes := Int 0;
          pending := Int 0; win_rate := Int 0; total_staked := Float 10;
          total_payout := Float 20; profit_loss := Float 10; roi := Float 100 |}.
Proof. vm_compute. reflexivity. Qed.
End Statistics.

(** ** Text lemmas *)

Section Text.
Import PyStr.

Lemma prefix_append (a b : string) : String.prefix a (a +:+ b) = true.
Proof.
  induction a as [|c a IH]; simpl; [now destruct b|].
  destruct (ascii_dec c c); [exact IH | congruence].
Qed.

Lemma prefix_append_l (x a b : string) :
  String.prefix x a = true -> String.prefix x (a +:+ b) = true.
Proof.
  revert a. induction x as [|c x IH]; intros a H; [now destruct (a +:+ b)|].
  destruct a as [|d a]; simpl in *; [discriminate|].
  destruct (ascii_dec c d); [now apply IH | discriminate].
Qed.

Lemma contains_prefix (x s : string) :
  String.prefix x s = true -> contains x s = true.
Proof. intros H. destruct s; cbn [contains]; now rewrite H. Qed.

Lemma contains_cons (x s : string) (c : ascii) :
  contains x s = true -> contains x (String c s) = true.
Proof. intros H. cbn [contains]. rewrite H. apply orb_true_r. Qed.

Lemma contains_self_append (x b : string) : contains x (x +:+ b) = true.
Proof. apply contains_prefix, prefix_append. Qed.

Lemma contains_append_l (x a b : string) :
  contains x a = true -> contains x (a +:+ b) = true.
Proof.
  induction a as [|c a IH]; cbn [contains]; intros H.
  - rewrite orb_false_r in H. destruct x; [|discriminate].
    destruct b; reflexivity.
  - apply orb_true_iff in H as [H|H].
    + apply contains_prefix, prefix_append_l, H.
    + change (String c a +:+ b) with (String c (a +:+ b)).
      apply contains_cons, IH, H.
Qed.

Lemma contains_append_r (x a b : string) :
  contains x b = true -> contains x (a +:+ b) = true.
Proof.
  intros H. induction a as [|c a IH]; [exact H|].
  change (String c a +:+ b) with (String c (a +:+ b)).
  apply contains_cons, IH.
Qed.

Lemma contains_join (sep x : string) (l : list string) :
  In x l -> contains x (join sep l) = true.
Proof.
  induction l as [|y l IH]; [intros []|].
  intros [->|Hin].
  - destruct l; cbn [join].
    + apply contains_prefix. clear. induction x as [|c x IH]; simpl; [reflexivity|].
      destruct (ascii_dec c c); [exact IH | congruence].
    + apply contains_self_append.
  - destruct l as [|z l]; [destruct Hin|].
    cbn [join]. apply contains_append_r, contains_append_r, IH, Hin.
Qed.
End Text.

(** ** The CSV importer: rows *)

Section ImporterRows.
Import PyStr PyNum PyVal CsvImporter.

Lemma truthy_none_or_zero (x : option float) :
  truthy x = false <-> none_or_zero x.
Proof.
  unfold none_or_zero, truthy, float_truthy. destruct x as [f|].
  - rewrite negb_false_iff. split.
    + intros H. right. eauto.
    + intros [H|(g & [= <-] & H)]; [discriminate | exact H].
  - split; auto.
Qed.

Lemma process_row_None today (row : gmap string value) :
  _process_row today row = None <->
  (exists col, In col required_columns /\ row !! col = None)
  \/ none_or_zero (cleaned row "stake")
  \/ none_or_zero (cleaned row "potential_payout").
Proof.
  rewrite <- !truthy_none_or_zero. unfold cleaned, _process_row, required_columns.
  destruct (row !! "date") as [dv|] eqn:Ed; cbn [mbind option_bind];
    [|split; [intros _; left; exists "date"; cbn; auto | reflexivity]].
  destruct (row !! "stake") as [sv|] eqn:Es; cbn [mbind option_bind];
    [|split; [intros _; right; left; reflexivity | reflexivity]].
  destruct (row !! "potential_payout") as [pv|] eqn:Ep; cbn [mbind option_bind];
    [|split; [intros _; right; right; reflexivity | reflexivity]].
  destruct (_clean_numeric sv) as [sf|] eqn:Ecs;
    [|split; [intros _; right; left; reflexivity | reflexivity]].
  destruct (_clean_numeric pv) as [pf|] eqn:Ecp;
    [|split; [intros _; right; right; reflexivity | reflexivity]].
  cbn [truthy].
  destruct (float_truthy sf) eqn:Ts; cbn [negb orb];
    [|split; [intros _; right; left; reflexivity | reflexivity]].
  destruct (float_truthy pf) eqn:Tp; cbn [negb orb];
    [|split; [intros _; right; right; reflexivity | reflexivity]].
  destruct (row !! "bet_type") as [v1|] eqn:E1; cbn [mbind option_bind];
    [|split; [intros _; left; exists "bet_type"; cbn; auto | reflexivity]].
  destruct (row !! "sport") as [v2|] eqn:E2; cbn [mbind option_bind];
    [|split; [intros _; left; exists "sport"; cbn; auto | reflexivity]].
  destruct (row !! "game_description") as [v3|] eqn:E3; cbn [mbind option_bind];
    [|split; [intros _; left; exists "game_description"; cbn; auto 10 | reflexivity]].
  destruct (row !! "bet_description") as [v4|] eqn:E4; cbn [mbind option_bind];
    [|split; [intros _; left; exists "bet_description"; cbn; auto 10 | reflexivity]].
  destruct (row !! "odds") as [v5|] eqn:E5; cbn [mbind option_bind];
    [|split; [intros _; left; exists "odds"; cbn; auto 10 | reflexivity]].
  split; [discriminate|].
  intros [(col & Hin & Hcol)|[H|H]]; try discriminate.
  cbn in Hin. intuition; subst; congruence.
Qed.

Lemma process_rows_spec today rs : forall index bets skipped,
  process_rows today index rs bets skipped =
  (bets ++ omap (_process_row today) rs, skipped ++ skips today index rs).
Proof.
  induction rs as [|row rs IH]; intros index bets skipped; cbn [process_rows omap list_omap skips].
  - now rewrite !app_nil_r.
  - destruct (_process_row today row) as [b|]; rewrite IH.
    + now rewrite <- app_assoc.
    + now rewrite <- app_assoc.
Qed.

Lemma skips_length today rs : forall index,
  (length (omap (_process_row today) rs) + length (skips today index rs)
   = length rs)%nat.
Proof.
  induction rs as [|row rs IH]; intros index; cbn [omap list_omap skips length];
    [reflexivity|].
  specialize (IH (S index)).
  destruct (_process_row today row); cbn [length]; lia.
Qed.

(** The row at position [i] (from 0) is skipped as row [index + i]. *)
Lemma skips_entry today rs : forall index i row,
  rs !! i = Some row ->
  _process_row today row = None ->
  In (skip_entry (index + i)) (skips today index rs).
Proof.
  induction rs as [|r rs IH]; intros index i row Hi Hr; [discriminate|].
  destruct i as [|i]; cbn in Hi.
  - injection Hi as ->. cbn [skips]. rewrite Hr, Nat.add_0_r. now left.
  - cbn [skips]. replace (index + S i)%nat with (S index + i)%nat by lia.
    destruct (_process_row today r); [|right]; eapply IH; eauto.
Qed.

Lemma existsb_eqb_In (col : string) (fns : list string) :
  existsb (String.eqb col) fns = true <-> In col fns.
Proof.
  rewrite existsb_exists. split.
  - intros (x & Hx & E). apply String.eqb_eq in E. now subst.
  - intros H. exists col. split; [assumption | apply String.eqb_refl].
Qed.

Lemma has_required_In (rd : Csv.reader) :
  has_required rd = true <->
  (forall col, In col required_columns -> In col (header_of rd)).
Proof.
  unfold has_required. rewrite forallb_forall.
  split; intros H col Hin; apply existsb_eqb_In, H, Hin.
Qed.

Lemma missing_nil (rd : Csv.reader) :
  has_required rd = true -> missing rd = [].
Proof.
  unfold has_required, missing. generalize required_columns as cols.
  induction cols as [|c cols IH]; [reflexivity|].
  cbn [forallb List.filter]. intros H.
  apply andb_true_iff in H as [-> H]. cbn [negb]. now apply IH.
Qed.

Lemma missing_cons (rd : Csv.reader) :
  has_required rd = false -> exists c l, missing rd = c :: l.
Proof.
  unfold has_required, missing. generalize required_columns as cols.
  induction cols as [|c cols IH]; [discriminate|].
  cbn [forallb List.filter]. intros H.
  destruct (existsb (String.eqb c) (header_of rd)); cbn [negb andb] in *; eauto.
Qed.

Lemma missing_In (rd : Csv.reader) (col : string) :
  In col (missing rd) <-> In col required_columns /\ ~ In col (header_of rd).
Proof.
  unfold missing. rewrite filter_In, negb_true_iff.
  rewrite <- (existsb_eqb_In col (header_of rd)).
  destruct (existsb (String.eqb col) (header_of rd)); intuition congruence.
Qed.

Lemma process_csv_reader_rows today (rd : Csv.reader) :
  has_required rd = true ->
  _process_csv_reader today rd =
  {[ "success" := RBool true; "error" := RNone;
     "bets" := RBets (omap (_process_row today) (Csv.rows rd));
     "skipped" := RSkipped (skips today 1 (Csv.rows rd)) ]}.
Proof.
  intros H. apply missing_nil in H.
  unfold _process_csv_reader, missing_columns.
  unfold missing, header_of in H. rewrite H.
  now rewrite process_rows_spec.
Qed.

Lemma process_csv_reader_missing today (rd : Csv.reader) :
  has_required rd = false ->
  _process_csv_reader today rd =
  failure ("Missing required columns: " +:+ join ", " (missing rd)).
Proof.
  intros H. destruct (missing_cons rd H) as (c & l & E).
  unfold _process_csv_reader, missing_columns.
  fold (header_of rd). fold (missing rd).
  now rewrite E.
Qed.

(** What [import_from_csv] does once the file is open, its delimiter
    found and its records read. *)
Lemma import_from_csv_reader quoted_guess today (fs : filesystem)
    (path content : string) (delimiter : ascii) (rd : Csv.reader) :
  fs !! path = Some content ->
  Csv.sniff quoted_guess (PyStr.take 1024 content) = Some delimiter ->
  Csv.DictReader delimiter content = Some rd ->
  import_from_csv quoted_guess today fs path = _process_csv_reader today rd.
Proof.
  intros Hf Hs Hr. unfold import_from_csv. rewrite Hf, Hs.
  unfold Csv.DictReader in Hr.
  destruct (Csv.records delimiter content) as [read [e|]]; [discriminate|].
  now injection Hr as <-.
Qed.

Lemma zip_row_keeps (header row : list string) : forall (d : gmap string value) k,
  is_Some (d !! k) -> is_Some (Csv.zip_row header row d !! k).
Proof.
  revert row. induction header as [|h header IH]; intros row d k Hk; [exact Hk|].
  destruct row as [|x row]; cbn [Csv.zip_row]; apply IH.
  all: destruct (decide (h = k)) as [->|Hne];
    [rewrite lookup_insert_eq; eauto | now rewrite lookup_insert_ne].
Qed.

Lemma zip_row_keys (header row : list string) : forall (d : gmap string value) k,
  In k header -> is_Some (Csv.zip_row header row d !! k).
Proof.
  revert row. induction header as [|h header IH]; intros row d k Hk; [destruct Hk|].
  destruct Hk as [->|Hk].
  - destruct row as [|x row]; cbn [Csv.zip_row]; apply zip_row_keeps;
      rewrite lookup_insert_eq; eauto.
  - destruct row as [|x row]; cbn [Csv.zip_row]; now apply IH.
Qed.

(** Every row a [DictReader] yields has every name of the header as a key. *)
Lemma DictReader_keys (delimiter : ascii) (content : string) (rd : Csv.reader) :
  Csv.DictReader delimiter content = Some rd ->
  forall row, In row (Csv.rows rd) ->
  forall col, In col (header_of rd) -> is_Some (row !! col).
Proof.
  unfold Csv.DictReader. intros H.
  destruct (Csv.records _ _) as [[|header body] [e|]]; try discriminate.
  - injection H as <-. intros row [].
  - injection H as <-. cbn [Csv.reader_of Csv.rows header_of Csv.fieldnames default].
    intros row Hrow col Hcol. apply in_map_iff in Hrow as (r & <- & _).
    cbn. now apply zip_row_keys.
Qed.

Lemma process_row_Some today (row : gmap string value) (b : bet_data) :
  _process_row today row = Some b ->
  exists dv sv pv,
    row !! "date" = Some dv /\ row !! "stake" = Some sv /\
    row !! "potential_payout" = Some pv /\
    _clean_numeric sv = Some (stake b) /\
    _clean_numeric pv = Some (potential_payout b) /\
    float_truthy (stake b) = true /\ float_truthy (potential_payout b) = true /\
    date b = parse_date today (str dv) /\
    (forall ov, row !! "odds" = Some ov -> odds b = _clean_text ov).
Proof.
  unfold _process_row.
  destruct (row !! "date") as [dv|]; cbn [mbind option_bind]; [|discriminate].
  destruct (row !! "stake") as [sv|]; cbn [mbind option_bind]; [|discriminate].
  destruct (row !! "potential_payout") as [pv|]; cbn [mbind option_bind];
    [|discriminate].
  destruct (_clean_numeric sv) as [sf|] eqn:Es; [|discriminate].
  destruct (_clean_numeric pv) as [pf|] eqn:Ep; [|discriminate].
  destruct (float_truthy sf) eqn:Ts; cbn [negb orb]; [|discriminate].
  destruct (float_truthy pf) eqn:Tp; cbn [negb orb]; [|discriminate].
  destruct (row !! "bet_type"); cbn [mbind option_bind]; [|discriminate].
  destruct (row !! "sport"); cbn [mbind option_bind]; [|discriminate].
  destruct (row !! "game_description"); cbn [mbind option_bind]; [|discriminate].
  destruct (row !! "bet_description"); cbn [mbind option_bind]; [|discriminate].
  destruct (row !! "odds") as [ov|]; cbn [mbind option_bind]; [|discriminate].
  intros [= <-]. exists dv, sv, pv. cbn.
  do 8 (split; [first [reflexivity | assumption]|]).
  intros ov' E. now injection E as <-.
Qed.

Lemma omap_In today (rs : list (gmap string value)) (b : bet_data) :
  In b (omap (_process_row today) rs) <->
  exists row, In row rs /\ _process_row today row = Some b.
Proof.
  rewrite <- list_elem_of_In, list_elem_of_omap.
  split; intros (row & H1 & H2); exists row; split; auto;
    now apply list_elem_of_In.
Qed.
End ImporterRows.

(** ** The CSV importer: the claims about rows, headers and dates *)

Section ImporterClaims.
Import PyStr PyNum PyVal CsvImporter.

(** C3 (as amended): when the header has every required column, the
    rows the reader yields are handled one by one and in order: the
    result is a success whose [bets] are the records of the rows that
    give one and whose [skipped] holds "Row i: Invalid data" for each
    other row, [i] counting from 1; a row gives no record exactly when a
    key is missing (the error case) or its cleaned stake or potential
    payout is [None] or zero; no such row stops the import.  This is the
    result of [import_from_csv] whenever the delimiter of the file is
    found and the reader reads every record without a [csv.Error]; no
    key can be missing then. *)
Theorem import_rows_independent :
  (forall today (rd : Csv.reader),
     has_required rd = true ->
     let bets := omap (_process_row today) (Csv.rows rd) in
     let skipped := skips today 1 (Csv.rows rd) in
     _process_csv_reader today rd =
       {[ "success" := RBool true; "error" := RNone;
          "bets" := RBets bets; "skipped" := RSkipped skipped ]} /\
     (length bets + length skipped = length (Csv.rows rd))%nat /\
     (forall i row, Csv.rows rd !! i = Some row ->
        match _process_row today row with
        | Some b => In b bets
        | None => In (skip_entry (S i)) skipped
        end)) /\
  (forall today (row : gmap string value),
     _process_row today row = None <->
     (exists col, In col required_columns /\ row !! col = None)
     \/ none_or_zero (cleaned row "stake")
     \/ none_or_zero (cleaned row "potential_payout")) /\
  (forall quoted_guess today (fs : filesystem) path content delimiter rd,
     fs !! path = Some content ->
     Csv.sniff quoted_guess (PyStr.take 1024 content) = Some delimiter ->
     Csv.DictReader delimiter content = Some rd ->
     has_required rd = true ->
     import_from_csv quoted_guess today fs path = _process_csv_reader today rd /\
     (forall row, In row (Csv.rows rd) ->
        _process_row today row = None <->
        none_or_zero (cleaned row "stake")
        \/ none_or_zero (cleaned row "potential_payout"))).
Proof.
  split; [|split].
  - intros today rd H bets skipped.
    split; [now apply process_csv_reader_rows|].
    split; [apply skips_length|].
    intros i row Hi.
    destruct (_process_row today row) as [b|] eqn:E.
    + apply omap_In. exists row. split; [|assumption].
      apply list_elem_of_In, list_elem_of_lookup. eauto.
    + now apply (skips_entry today (Csv.rows rd) 1 i row).
  - apply process_row_None.
  - intros qg today fs path content delimiter rd Hf Hs Hr Hreq.
    split; [now apply import_from_csv_reader with content delimiter|].
    intros row Hrow. rewrite process_row_None.
    split; [|tauto].
    intros [(col & Hcol & Hnone)|H]; [|assumption].
    exfalso. apply has_required_In with (col := col) in Hreq; [|assumption].
    destruct (DictReader_keys _ _ _ Hr row Hrow col Hreq) as [v Hv]. congruence.
Qed.

Lemma import_rows_independent_witness :
  has_required mixed_reader = true /\
  _process_csv_reader "2026-11-05" mixed_reader =
    {[ "success" := RBool true; "error" := RNone;
       "bets" := RBets (omap (_process_row "2026-11-05") (Csv.rows mixed_reader));
       "skipped" := RSkipped ["Row 2: Invalid data"; "Row 3: Invalid data"] ]}.
Proof.
  assert (H : has_required mixed_reader = true) by (vm_compute; reflexivity).
  split; [exact H|].
  exact (proj1 (proj1 import_rows_independent "2026-11-05" mixed_reader H)).
Defined.

(** One short row makes the import fail as a whole.  The header of
    [short_row_csv] has every required column, and read with a comma the
    file gives one record and the skip entry of row 2; but no delimiter
    is found for it, so [import_from_csv] returns a failure and no bet.
    Without that row the same file is imported. *)
Lemma import_short_row_aborts :
  option_map (fun rd => (has_required rd, _process_csv_reader "2026-11-05" rd))
    (Csv.DictReader "," short_row_csv) =
  Some (true,
        {[ "success" := RBool true; "error" := RNone;
           "bets" := RBets [good_row_bet];
           "skipped" := RSkipped ["Row 2: Invalid data"] ]}) /\
  import_from_csv no_quotes "2026-11-05" {[ "bets.csv" := short_row_csv ]} "bets.csv" =
  {[ "success" := RBool false; "error" := RStr "Could not determine delimiter";
     "bets" := RBets [] ]} /\
  import_from_csv no_quotes "2026-11-05" {[ "bets.csv" := good_row_csv ]} "bets.csv" =
  {[ "success" := RBool true; "error" := RNone;
     "bets" := RBets [good_row_bet]; "skipped" := RSkipped [] ]}.
Proof. repeat split; vm_compute; reflexivity. Qed.

(** What the importer makes of [mixed_csv]: rows 2 and 3 are skipped,
    rows 1 and 4 are kept, row 4 with its negative stake and no odds. *)
Lemma import_mixed_csv :
  import_from_csv no_quotes "2026-11-05" {[ "bets.csv" := mixed_csv ]} "bets.csv" =
  {[ "success" := RBool true; "error" := RNone;
     "bets" :=
       RBets
         [ {| date := "2024-01-15"; bet_type := "spread"; sport := "NFL";
              game_description := "Chiefs vs Bills";
              bet_description := "Chiefs -3.5"; odds := "-110"; stake := 25;
              potential_payout := PyNum.float_of_ratio false 4773 100;
              status := "pending"; actual_payout := 0 |};
           {| date := "2024-01-18"; bet_type := "total"; sport := "NBA";
              game_description := "Lakers vs Celtics";
              bet_description := "Over 210"; odds := ""; stake := (-5)%float;
              potential_payout := (-3)%float;
              status := "pending"; actual_payout := 0 |} ];
     "skipped" := RSkipped ["Row 2: Invalid data"; "Row 3: Invalid data"] ]}.
Proof. vm_compute. reflexivity. Qed.

(** C4 (as amended): when the header lacks a required column the import
    stops at once: [success] is false, [error] is "Missing required
    columns: " followed by the missing names, so it contains each of
    them, [bets] is empty, and the result has no [skipped] entry at all.
    The same holds of [import_from_csv] once the file is read; without
    its [odds] column the error contains "odds". *)
Theorem import_missing_columns :
  (forall today (rd : Csv.reader),
     has_required rd = false ->
     let res := _process_csv_reader today rd in
     let msg := "Missing required columns: " +:+ join ", " (missing rd) in
     res !! "success" = Some (RBool false) /\
     res !! "error" = Some (RStr msg) /\
     res !! "bets" = Some (RBets []) /\
     res !! "skipped" = None /\
     (forall col, In col required_columns -> ~ In col (header_of rd) ->
        contains col msg = true)) /\
  (forall quoted_guess today (fs : filesystem) path content delimiter rd,
     fs !! path = Some content ->
     Csv.sniff quoted_guess (PyStr.take 1024 content) = Some delimiter ->
     Csv.DictReader delimiter content = Some rd ->
     has_required rd = false ->
     import_from_csv quoted_guess today fs path = _process_csv_reader today rd) /\
  import_from_csv no_quotes "2026-11-05" {[ "bets.csv" := no_odds_csv ]} "bets.csv" =
    {[ "success" := RBool false;
       "error" := RStr "Missing required columns: odds";
       "bets" := RBets [] ]}.
Proof.
  split; [|split].
  - intros today rd H res msg. subst res.
    rewrite (process_csv_reader_missing today rd H). fold msg.
    do 4 (split; [reflexivity|]).
    intros col Hreq Hnot. unfold msg.
    apply contains_append_r, contains_join, missing_In. now split.
  - intros qg today fs path content delimiter rd Hf Hs Hr _.
    now apply import_from_csv_reader with content delimiter.
  - vm_compute. reflexivity.
Qed.

Lemma import_missing_columns_witness :
  has_required no_odds_reader = false /\
  _process_csv_reader "2026-11-05" no_odds_reader !! "skipped" = None /\
  contains "odds"
    ("Missing required columns: " +:+ join ", " (missing no_odds_reader)) = true.
Proof.
  assert (H : has_required no_odds_reader = false) by (vm_compute; reflexivity).
  destruct (proj1 import_missing_columns "2026-11-05" no_odds_reader H)
    as (_ & _ & _ & Hs & Hc).
  split; [exact H|]. split; [exact Hs|].
  apply Hc; vm_compute; [tauto|].
  intros Hin. repeat (destruct Hin as [Hin|Hin]; [discriminate Hin|]). exact Hin.
Defined.

(** The result for a header without [odds] is a failure with the keys
    [success], [error] and [bets] only: it has no [skipped] list. *)
Lemma import_missing_odds_no_skipped :
  let res :=
    import_from_csv no_quotes "2026-11-05" {[ "bets.csv" := no_odds_csv ]} "bets.csv" in
  res !! "success" = Some (RBool false) /\
  res !! "skipped" = None /\
  ~ exists l, res !! "skipped" = Some (RSkipped l).
Proof.
  cbv zeta.
  assert (E : import_from_csv no_quotes "2026-11-05" {[ "bets.csv" := no_odds_csv ]}
                "bets.csv" !! "skipped" = None) by (vm_compute; reflexivity).
  split; [vm_compute; reflexivity|]. split; [exact E|].
  intros [l Hl]. rewrite E in Hl. discriminate.
Qed.
End ImporterClaims.

(** ** Dates, and the template round trip *)

Section ImporterDates.
Import PyStr PyNum PyVal CsvImporter.

Lemma process_row_date_irrelevant today (row : gmap string value) (v v' : value) :
  _process_row today (<["date" := v]> row) = None <->
  _process_row today (<["date" := v']> row) = None.
Proof.
  rewrite !process_row_None. unfold cleaned.
  rewrite !(lookup_insert_ne row "date" "stake") by discriminate.
  rewrite !(lookup_insert_ne row "date" "potential_payout") by discriminate.
  assert (Hmiss : forall u u' : value,
    (exists col, In col required_columns /\ <["date" := u]> row !! col = None) ->
    (exists col, In col required_columns /\ <["date" := u']> row !! col = None)).
  { intros u u' (col & Hin & Hcol). exists col. split; [assumption|].
    destruct (decide ("date" = col)) as [<-|Hne].
    - rewrite lookup_insert_eq in Hcol. discriminate.
    - rewrite lookup_insert_ne in * by assumption. assumption. }
  split; (intros [H|H]; [left; eapply Hmiss; eassumption | right; assumption]).
Qed.

(** C8: the date of a row is read as [YYYY-MM-DD] first, then as
    [MM/DD/YYYY]; when neither parses the record carries the current
    date.  The record of a row carries the date so obtained, and whether
    a row is kept does not depend on what its date cell holds. *)
Theorem date_fallback :
  (forall today s,
     parse_date today s =
     match DateTime.strptime DateTime.fmt_iso s with
     | Some d => DateTime.strftime d
     | None =>
         match DateTime.strptime DateTime.fmt_us s with
         | Some d => DateTime.strftime d
         | None => today
         end
     end) /\
  (forall today (row : gmap string value) b,
     _process_row today row = Some b ->
     exists v, row !! "date" = Some v /\ date b = parse_date today (str v)) /\
  (forall today (row : gmap string value) (v v' : value),
     _process_row today (<["date" := v]> row) = None <->
     _process_row today (<["date" := v']> row) = None) /\
  parse_date "2026-11-05" "2024-01-15" = "2024-01-15" /\
  parse_date "2026-11-05" "01/15/2024" = "2024-01-15" /\
  parse_date "2026-11-05" "15 Jan 2024" = "2026-11-05" /\
  parse_date "2026-11-05" "2024-02-30" = "2026-11-05" /\
  (exists b,
     _process_row "2026-11-05"
       (<["date" := VStr "15 Jan 2024"]> (default ∅ (head (Csv.rows mixed_reader))))
     = Some b /\ date b = "2026-11-05").
Proof.
  split; [reflexivity|].
  split.
  { intros today row b H.
    destruct (process_row_Some today row b H)
      as (dv & sv & pv & Hd & _ & _ & _ & _ & _ & _ & Hb & _).
    eauto. }
  split; [apply process_row_date_irrelevant|].
  repeat split; try (vm_compute; reflexivity).
  eexists. split; vm_compute; reflexivity.
Qed.

Lemma date_fallback_witness :
  exists v,
    default ∅ (head (Csv.rows mixed_reader)) !! "date" = Some v /\
    "2024-01-15" = parse_date "2026-11-05" (str v).
Proof.
  refine (proj1 (proj2 date_fallback) "2026-11-05"
            (default ∅ (head (Csv.rows mixed_reader)))
            {| date := "2024-01-15"; bet_type := "spread"; sport := "NFL";
               game_description := "Chiefs vs Bills";
               bet_description := "Chiefs -3.5"; odds := "-110"; stake := 25;
               potential_payout := PyNum.float_of_ratio false 4773 100;
               status := "pending"; actual_payout := 0 |} _).
  vm_compute. reflexivity.
Defined.

Lemma template_written :
  Csv.write_table (required_columns ++ optional_columns) template_rows
  = Some template_text.
Proof. vm_compute. reflexivity. Qed.

Lemma template_delimiter quoted_guess :
  Csv.sniff quoted_guess (PyStr.take 1024 template_text) = Some ","%char.
Proof.
  unfold Csv.sniff.
  replace (Csv.has_quote (PyStr.take 1024 template_text)) with false
    by (vm_compute; reflexivity).
  vm_compute. reflexivity.
Qed.

Lemma template_read today :
  option_map (_process_csv_reader today) (Csv.DictReader "," template_text) =
  Some {[ "success" := RBool true; "error" := RNone;
          "bets" := RBets template_bets; "skipped" := RSkipped [] ]}.
Proof. vm_compute. reflexivity. Qed.

(** C9: [generate_template_csv] writes the header of required and
    optional columns and two example rows; [import_from_csv] on that
    file succeeds with exactly two records and no skip entry. *)
Theorem template_round_trip quoted_guess today (fs : filesystem) (path : string) :
  exists fs',
    generate_template_csv fs path = Some (fs', path) /\
    fs' !! path = Some template_text /\
    import_from_csv quoted_guess today fs' path =
      {[ "success" := RBool true; "error" := RNone;
         "bets" := RBets template_bets; "skipped" := RSkipped [] ]} /\
    length template_bets = 2%nat.
Proof.
  exists (<[path := template_text]> fs).
  unfold generate_template_csv. rewrite template_written. cbn [mbind option_bind].
  split; [reflexivity|].
  split; [apply lookup_insert_eq|].
  split; [|reflexivity].
  unfold import_from_csv. rewrite lookup_insert_eq, template_delimiter.
  pose proof (template_read today) as H.
  destruct (Csv.DictReader "," template_text) as [rd|]; cbn in H; [|discriminate].
  now injection H.
Qed.
End ImporterDates.

(** ** The matcher is sound: what a group holds, its body matches *)

Section Matcher.
Import PyStr Re.

Lemma append_cons (c : ascii) (a b : string) :
  String c a +:+ b = String c (a +:+ b).
Proof. reflexivity. Qed.

Lemma length_append (a b : string) :
  String.length (a +:+ b) = (String.length a + String.length b)%nat.
Proof.
  induction a as [|c a IH]; [reflexivity|].
  rewrite append_cons. cbn [String.length]. now rewrite IH.
Qed.

Lemma append_assoc (a b c : string) : (a +:+ b) +:+ c = a +:+ (b +:+ c).
Proof.
  induction a as [|x a IH]; [reflexivity|]. rewrite !append_cons. now rewrite IH.
Qed.

Lemma append_nil_r (a : string) : a +:+ "" = a.
Proof.
  induction a as [|x a IH]; [reflexivity|]. rewrite append_cons. now rewrite IH.
Qed.

Lemma take_append (w s : string) :
  PyStr.take (String.length (w +:+ s) - String.length s) (w +:+ s) = w.
Proof.
  rewrite length_append. replace (_ + _ - _)%nat with (String.length w) by lia.
  induction w as [|c w IH].
  - now destruct s.
  - rewrite append_cons. cbn [String.length PyStr.take]. now rewrite IH.
Qed.

Lemma captured_refl ic r g : captured ic r g g.
Proof. intros i u H. now left. Qed.

Lemma captured_weaken ic (r r' : regex) g g' :
  (forall i body, In body (bodies i r) -> In body (bodies i r')) ->
  captured ic r g g' -> captured ic r' g g'.
Proof.
  intros Hsub H i u Hu. destruct (H i u Hu) as [?|(body & Hb & Hm)]; [now left|].
  right. exists body. auto.
Qed.

Lemma captured_trans ic (r1 r2 r : regex) g1 g2 g3 :
  (forall i body, In body (bodies i r1) -> In body (bodies i r)) ->
  (forall i body, In body (bodies i r2) -> In body (bodies i r)) ->
  captured ic r1 g1 g2 -> captured ic r2 g2 g3 -> captured ic r g1 g3.
Proof.
  intros S1 S2 H12 H23 i u Hu.
  destruct (H23 i u Hu) as [H|(body & Hb & Hm)].
  - destruct (H12 i u H) as [?|(body & Hb & Hm)]; [now left|].
    right. exists body. auto.
  - right. exists body. auto.
Qed.

(** Soundness of [run]: a result comes from the continuation, called on
    what is left after a word that [r] matches. *)
Lemma run_sound {A : Type} ic (r : regex) :
  forall (s : string) (g : groups) (k : string -> groups -> option A) (res : A),
    run ic r s g k = Some res ->
    exists w s' g',
      s = w +:+ s' /\ matches ic r w /\ captured ic r g g' /\ k s' g' = Some res.
Proof.
  induction r as [| b | | neg items | r1 IH1 r2 IH2 | r1 IH1 r2 IH2 | r1 IH1 | i r1 IH1];
    intros s g k res H; cbn [run] in H.
  - exists ""%string, s, g. repeat split; auto using matches_empty, captured_refl.
  - destruct s as [|a t]; [discriminate|].
    destruct (item_match ic (IChar b) a) eqn:E; [|discriminate].
    exists (String a ""), t, g.
    repeat split; auto using matches_chr, captured_refl.
  - destruct s as [|a t]; [discriminate|].
    destruct (Ascii.eqb a "010") eqn:E; [discriminate|].
    exists (String a ""), t, g.
    repeat split; auto using matches_dot, captured_refl.
  - destruct s as [|a t]; [discriminate|].
    destruct (class_match ic neg items a) eqn:E; [|discriminate].
    exists (String a ""), t, g.
    repeat split; auto using matches_class, captured_refl.
  - apply IH1 in H as (w1 & s1 & g1 & -> & M1 & C1 & H).
    apply IH2 in H as (w2 & s2 & g2 & -> & M2 & C2 & H).
    exists (w1 +:+ w2), s2, g2. rewrite append_assoc.
    repeat split; auto using matches_cat.
    eapply captured_trans; [| |exact C1|exact C2]; intros j body Hb; cbn [bodies];
      apply in_or_app; auto.
  - destruct (run ic r1 s g k) as [x|] eqn:E1.
    + injection H as ->. apply IH1 in E1 as (w & s' & g' & -> & M & C & H).
      exists w, s', g'. repeat split; auto using matches_alt_l.
      eapply captured_weaken; [|exact C]. intros j body Hb. cbn [bodies].
      apply in_or_app; auto.
    + apply IH2 in H as (w & s' & g' & -> & M & C & H).
      exists w, s', g'. repeat split; auto using matches_alt_r.
      eapply captured_weaken; [|exact C]. intros j body Hb. cbn [bodies].
      apply in_or_app; auto.
  - revert H. generalize (String.length s) as fuel. intros fuel. revert s g.
    induction fuel as [|fuel IHf]; intros s g H; cbn [star_loop] in H.
    + exists ""%string, s, g.
      repeat split; auto using matches_star_nil, captured_refl.
    + match type of H with
      | match ?X with _ => _ end = _ => destruct X as [x|] eqn:E
      end.
      * injection H as ->. apply IH1 in E as (w1 & s1 & g1 & -> & M1 & C1 & E).
        destruct (_ <? _)%nat; [|discriminate].
        apply IHf in E as (w2 & s2 & g2 & -> & M2 & C2 & E).
        exists (w1 +:+ w2), s2, g2. rewrite append_assoc.
        repeat split; auto using matches_star_cons.
        eapply captured_trans; [| |exact C1|exact C2]; intros j body Hb; exact Hb.
      * exists ""%string, s, g.
        repeat split; auto using matches_star_nil, captured_refl.
  - apply IH1 in H as (w & s' & g' & -> & M & C & H).
    rewrite take_append in H.
    exists w, s', (<[i := w]> g'). repeat split; auto using matches_group.
    intros j u Hu. destruct (decide (i = j)) as [<-|Hne].
    + rewrite lookup_insert_eq in Hu. injection Hu as <-.
      right. exists r1. split; [|assumption].
      cbn [bodies]. rewrite Nat.eqb_refl. now left.
    + rewrite lookup_insert_ne in Hu by assumption.
      destruct (C j u Hu) as [?|(body & Hb & Hm)]; [now left|].
      right. exists body. split; [|assumption].
      cbn [bodies]. apply in_or_app. now right.
Qed.

Lemma search_sound ic (r : regex) (s : string) (g : groups) :
  search ic r s = Some g ->
  forall i u, g !! i = Some u ->
  exists body, In body (bodies i r) /\ matches ic body u.
Proof.
  induction s as [|a t IH]; cbn [search]; unfold match_.
  - destruct (run ic r "" ∅ _) as [[rest g']|] eqn:E; [|discriminate].
    intros [= <-] i u Hu.
    apply run_sound in E as (w & s' & g2 & _ & _ & C & [= _ <-]).
    destruct (C i u Hu) as [H|H]; [|exact H].
    rewrite lookup_empty in H. discriminate.
  - destruct (run ic r (String a t) ∅ _) as [[rest g']|] eqn:E; [|exact IH].
    intros [= <-] i u Hu.
    apply run_sound in E as (w & s' & g2 & _ & _ & C & [= _ <-]).
    destruct (C i u Hu) as [H|H]; [|exact H].
    rewrite lookup_empty in H. discriminate.
Qed.
End Matcher.

(** ** Substitutions *)

Section Substitutions.
Import PyStr Re.

Lemma length_neq_succ (t : string) (a : ascii) :
  (String.length t =? String.length (String a t))%nat = false.
Proof. apply Nat.eqb_neq. cbn. lia. Qed.

(** Substituting nothing for a set of characters filters them out. *)
Lemma sub_go_class neg items : forall fuel s ma,
  (String.length s < fuel)%nat ->
  sub_go fuel (Class neg items) "" s ma =
  sfilter (fun a => negb (class_match false neg items a)) s.
Proof.
  induction fuel as [|fuel IH]; intros s ma Hlen; [lia|].
  destruct s as [|a t]; [reflexivity|].
  cbn [sub_go run sfilter]. cbn [String.length] in Hlen.
  destruct (class_match false neg items a); cbn [negb].
  - rewrite length_neq_succ, andb_false_r. cbn [append]. apply IH. lia.
  - f_equal. apply IH. lia.
Qed.

Lemma sub_class neg items s :
  sub (Class neg items) "" s =
  sfilter (fun a => negb (class_match false neg items a)) s.
Proof. apply sub_go_class. lia. Qed.

Lemma sfilter_ext (p q : ascii -> bool) s :
  (forall a, p a = q a) -> sfilter p s = sfilter q s.
Proof.
  intros H. induction s as [|a t IH]; [reflexivity|].
  cbn [sfilter]. now rewrite H, IH.
Qed.

Lemma sfilter_sforall (p : ascii -> bool) s : sforall p (sfilter p s) = true.
Proof.
  induction s as [|a t IH]; [reflexivity|]. cbn [sfilter].
  destruct (p a) eqn:E; [|exact IH]. cbn [sforall]. now rewrite E, IH.
Qed.

Lemma sfilter_id (p : ascii -> bool) s : sforall p s = true -> sfilter p s = s.
Proof.
  induction s as [|a t IH]; [reflexivity|]. cbn [sforall sfilter].
  intros H. apply andb_true_iff in H as [-> H]. now rewrite IH.
Qed.

Lemma sforall_impl (p q : ascii -> bool) s :
  (forall a, p a = true -> q a = true) -> sforall p s = true -> sforall q s = true.
Proof.
  intros Hpq. induction s as [|a t IH]; [reflexivity|]. cbn [sforall].
  intros H. apply andb_true_iff in H as [Ha H]. now rewrite (Hpq a Ha), IH.
Qed.

Lemma sforall_append (p : ascii -> bool) (a b : string) :
  sforall p (a +:+ b) = sforall p a && sforall p b.
Proof.
  induction a as [|c a IH]; [reflexivity|].
  rewrite append_cons. cbn [sforall]. now rewrite IH, andb_assoc.
Qed.

Lemma sub_currency s : sub CsvImporter.re_currency "" s = sfilter undecorated s.
Proof.
  unfold CsvImporter.re_currency. rewrite sub_class. apply sfilter_ext.
  intros a. unfold class_match, undecorated. cbn [existsb item_match].
  destruct (Ascii.eqb a "$"), (Ascii.eqb a ","), (isspace a); reflexivity.
Qed.

Lemma sub_not_money s : sub EmailParser.not_money_char "" s = sfilter money_char s.
Proof.
  unfold EmailParser.not_money_char. rewrite sub_class. apply sfilter_ext.
  intros a. unfold class_match, money_char. cbn [existsb item_match].
  destruct (isdigit a), (Ascii.eqb a "."); reflexivity.
Qed.

Lemma sub_not_odds s : sub EmailParser.not_odds_char "" s = sfilter odds_char s.
Proof.
  unfold EmailParser.not_odds_char. rewrite sub_class. apply sfilter_ext.
  intros a. unfold class_match, odds_char. cbn [existsb item_match].
  destruct (isdigit a), (Ascii.eqb a "+"), (Ascii.eqb a "-"); reflexivity.
Qed.
End Substitutions.

(** ** The numeric cleaner *)

Section NumericCleaner.
Import PyStr PyNum PyVal CsvImporter.

Lemma clean_numeric_otherwise (v : value) :
  v <> VNone -> v <> VStr "" -> lower (str v) <> "nan"%string ->
  _clean_numeric v = PyFloat.float_of_string (sfilter undecorated (str v)).
Proof.
  intros H1 H2 H3. unfold _clean_numeric.
  destruct v as [|s|z]; [congruence| |].
  - destruct s as [|a s]; [congruence|]. cbn [is_None is_empty orb].
    apply String.eqb_neq in H3. rewrite H3. now rewrite sub_currency.
  - cbn [is_None is_empty orb].
    apply String.eqb_neq in H3. rewrite H3. now rewrite sub_currency.
Qed.

(** C5: [_clean_numeric] returns [None] for [None], for the empty text
    and for any spelling of "nan"; otherwise it removes [$], [,] and
    blanks and reads the rest as a [float], with [None] when that fails
    (it always returns); a numeric text decorated with such characters
    gives the number of the undecorated text. *)
Theorem clean_numeric_spec :
  _clean_numeric VNone = None /\
  _clean_numeric (VStr "") = None /\
  (forall s, lower s = "nan"%string -> _clean_numeric (VStr s) = None) /\
  (forall v, v <> VNone -> v <> VStr "" -> lower (str v) <> "nan"%string ->
     _clean_numeric v = PyFloat.float_of_string (sfilter undecorated (str v))) /\
  (forall s s' x,
     PyFloat.float_of_string s = Some x ->
     sfilter undecorated s' = s ->
     s' <> ""%string -> lower s' <> "nan"%string ->
     _clean_numeric (VStr s') = Some x) /\
  _clean_numeric (VStr "$1,234.50") = Some (float_of_ratio false 12345 10) /\
  _clean_numeric (VStr " $25.00 ") = Some 25%float /\
  _clean_numeric (VStr "47.73") = Some (float_of_ratio false 4773 100) /\
  _clean_numeric (VStr "NaN") = None /\
  _clean_numeric (VStr "twenty") = None.
Proof.
  split; [reflexivity|]. split; [reflexivity|].
  split.
  { intros s H. unfold _clean_numeric. cbn [is_None str].
    apply String.eqb_eq in H. rewrite H.
    destruct (is_empty (VStr s)); reflexivity. }
  split; [exact clean_numeric_otherwise|].
  split.
  { intros s s' x Hx Hs Hne Hnan.
    rewrite clean_numeric_otherwise; cbn [str]; congruence. }
  repeat split; vm_compute; reflexivity.
Qed.

Lemma clean_numeric_spec_witness :
  PyFloat.float_of_string "1234.50" = Some (float_of_ratio false 12345 10) /\
  sfilter undecorated "$ 1,234.50" = "1234.50"%string /\
  _clean_numeric (VStr "$ 1,234.50") = Some (float_of_ratio false 12345 10).
Proof.
  assert (H1 : PyFloat.float_of_string "1234.50" = Some (float_of_ratio false 12345 10))
    by (vm_compute; reflexivity).
  assert (H2 : sfilter undecorated "$ 1,234.50" = "1234.50"%string)
    by (vm_compute; reflexivity).
  split; [exact H1|]. split; [exact H2|].
  apply (proj1 (proj2 (proj2 (proj2 (proj2 clean_numeric_spec))))
           "1234.50"%string "$ 1,234.50"%string _ H1 H2); discriminate.
Defined.
End NumericCleaner.

(** ** Blanks: stripping and collapsing *)

Section Blanks.
Import PyStr Re.

Lemma lstrip_length (t : string) : (String.length (lstrip t) <= String.length t)%nat.
Proof.
  induction t as [|a t IH]; cbn [lstrip String.length]; [lia|].
  destruct (isspace a); cbn [String.length]; lia.
Qed.

Lemma lstrip_no_leading (t : string) : starts_space (lstrip t) = false.
Proof.
  induction t as [|a t IH]; cbn [lstrip]; [reflexivity|].
  destruct (isspace a) eqn:E; [exact IH | exact E].
Qed.

Lemma single_spaced_cons (a : ascii) (t : string) :
  single_spaced (String a t) =
  (if isspace a then Ascii.eqb a " " && negb (starts_space t) else true)
  && single_spaced t.
Proof. reflexivity. Qed.

Lemma single_spaced_tail (a : ascii) (t : string) :
  single_spaced (String a t) = true -> single_spaced t = true.
Proof. cbn [single_spaced]. intros H. now apply andb_true_iff in H. Qed.

Lemma single_spaced_lstrip (s : string) :
  single_spaced s = true -> single_spaced (lstrip s) = true.
Proof.
  induction s as [|a t IH]; [reflexivity|]. intros H. cbn [lstrip].
  destruct (isspace a); [|exact H]. apply IH. eapply single_spaced_tail, H.
Qed.

Lemma rstrip_head (t u : string) (b : ascii) :
  rstrip t = String b u -> exists u', t = String b u'.
Proof.
  destruct t as [|a t]; [discriminate|]. cbn [rstrip].
  destruct (rstrip t); [destruct (isspace a)|]; intros [= <- _]; eauto.
Qed.

Lemma rstrip_starts (t : string) :
  starts_space (rstrip t) = true -> starts_space t = true.
Proof.
  destruct (rstrip t) as [|b u] eqn:E; [discriminate|].
  destruct (rstrip_head t u b E) as [u' ->]. exact id.
Qed.

Lemma single_spaced_rstrip (s : string) :
  single_spaced s = true -> single_spaced (rstrip s) = true.
Proof.
  induction s as [|a t IH]; [reflexivity|]. intros H.
  pose proof (single_spaced_tail a t H) as Ht. specialize (IH Ht).
  cbn [rstrip]. destruct (rstrip t) as [|b u] eqn:E.
  - destruct (isspace a) eqn:Ea; [reflexivity|]. cbn [single_spaced]. now rewrite Ea.
  - rewrite single_spaced_cons in H |- *. rewrite IH, andb_true_r.
    apply andb_true_iff in H as [H _].
    destruct (isspace a); [|reflexivity].
    apply andb_true_iff in H as [-> H]. cbn [andb].
    destruct (starts_space (String b u)) eqn:Es; [|reflexivity].
    rewrite <- E in Es. apply rstrip_starts in Es. now rewrite Es in H.
Qed.

Lemma rstrip_no_trailing (s : string) : ends_space (rstrip s) = false.
Proof.
  induction s as [|a t IH]; [reflexivity|]. cbn [rstrip].
  destruct (rstrip t) as [|b u] eqn:E.
  - destruct (isspace a) eqn:Ea; [reflexivity|]. cbn [ends_space]. exact Ea.
  - exact IH.
Qed.

Lemma strip_tidy (s : string) :
  single_spaced s = true ->
  single_spaced (strip s) = true /\ starts_space (strip s) = false
  /\ ends_space (strip s) = false.
Proof.
  intros H. unfold strip. split; [|split].
  - now apply single_spaced_rstrip, single_spaced_lstrip.
  - destruct (starts_space (rstrip (lstrip s))) eqn:E; [|reflexivity].
    apply rstrip_starts in E. now rewrite lstrip_no_leading in E.
  - apply rstrip_no_trailing.
Qed.

Lemma rstrip_id (s : string) :
  sforall (fun a => negb (isspace a)) s = true -> rstrip s = s.
Proof.
  induction s as [|a t IH]; [reflexivity|]. cbn [sforall rstrip].
  intros H. apply andb_true_iff in H as [Ha H]. rewrite (IH H).
  apply negb_true_iff in Ha. rewrite Ha. now destruct t.
Qed.

Lemma strip_id (s : string) :
  sforall (fun a => negb (isspace a)) s = true -> strip s = s.
Proof.
  intros H. unfold strip.
  replace (lstrip s) with s; [now apply rstrip_id|].
  destruct s as [|a t]; [reflexivity|]. cbn [sforall] in H.
  apply andb_true_iff in H as [Ha _]. apply negb_true_iff in Ha.
  cbn [lstrip]. now rewrite Ha.
Qed.

(** Greedy blanks: the loop hands over what is left once the leading
    blanks are gone, if the continuation takes it. *)
Lemma star_loop_space {A : Type} (k : string -> groups -> option A) :
  forall fuel t g res,
    (String.length t <= fuel)%nat ->
    k (lstrip t) g = Some res ->
    star_loop (run false Space) k fuel t g = Some res.
Proof.
  induction fuel as [|fuel IH]; intros t g res Hlen Hk.
  - destruct t; [exact Hk | cbn in Hlen; lia].
  - cbn [star_loop]. destruct t as [|b t]; [exact Hk|].
    unfold Space at 1. cbn [run]. unfold class_match. cbn [existsb item_match].
    cbn [lstrip] in Hk. cbn [String.length] in Hlen.
    destruct (isspace b); cbn [orb xorb].
    + replace (String.length t <? String.length (String b t))%nat with true
        by (symmetry; apply Nat.ltb_lt; cbn; lia).
      rewrite (IH t g res); [reflexivity | lia | exact Hk].
    + exact Hk.
Qed.

Lemma run_plus_space {A : Type} (k : string -> groups -> option A)
    (a : ascii) (t : string) (g : groups) :
  run false (Plus Space) (String a t) g k =
  if isspace a then star_loop (run false Space) k (String.length t) t g else None.
Proof.
  unfold Plus. cbn [run]. unfold Space at 1. cbn [run].
  unfold class_match. cbn [existsb item_match].
  destruct (isspace a); reflexivity.
Qed.

(** Each run of blanks becomes one space. *)
Lemma sub_go_spaces : forall fuel s ma,
  (String.length s < fuel)%nat ->
  single_spaced (sub_go fuel (Plus Space) " " s ma) = true /\
  (starts_space (sub_go fuel (Plus Space) " " s ma) = true -> starts_space s = true).
Proof.
  induction fuel as [|fuel IH]; intros s ma Hlen; [lia|].
  destruct s as [|a t]; [split; [reflexivity | exact id]|].
  cbn [String.length] in Hlen.
  cbn [sub_go]. rewrite run_plus_space.
  destruct (isspace a) eqn:Ea.
  - pose proof (lstrip_length t) as Hl.
    rewrite (star_loop_space _ (String.length t) t ∅ (lstrip t)); [|lia|].
    2:{ replace (String.length (lstrip t) =? String.length (String a t))%nat
          with false by (symmetry; apply Nat.eqb_neq; cbn; lia).
        now rewrite andb_false_r. }
    destruct (IH (lstrip t)
                (String.length (lstrip t) =? String.length (String a t))%nat)
      as [H1 H2]; [lia|].
    change (" " +:+ ?x)%string with (String " " x).
    cbn [single_spaced starts_space]. rewrite H1, Ea.
    split; [|reflexivity].
    destruct (starts_space (sub_go _ _ _ _ _)) eqn:E; [|reflexivity].
    specialize (H2 eq_refl). now rewrite lstrip_no_leading in H2.
  - destruct (IH t false) as [H1 H2]; [lia|].
    cbn [single_spaced starts_space]. rewrite Ea, H1. split; [reflexivity|].
    discriminate.
Qed.

Lemma sub_spaces_single (s : string) : single_spaced (sub (Plus Space) " " s) = true.
Proof. apply sub_go_spaces. lia. Qed.
End Blanks.

(** ** The email parser *)

Section Email.
Import PyStr Re EmailParser.

Lemma isdigit_not_space (a : ascii) : isdigit a = true -> isspace a = false.
Proof.
  destruct a as [[] [] [] [] [] [] [] []]; vm_compute; intros H;
    first [reflexivity | discriminate H].
Qed.

Lemma sign_class (a : ascii) :
  class_match true false [IChar "+"; IChar "-"] a = true ->
  a = "+"%char \/ a = "-"%char.
Proof.
  destruct a as [[] [] [] [] [] [] [] []]; vm_compute; intros H;
    first [discriminate H | now left | now right].
Qed.

Lemma matches_star_all ic (r : regex) (p : ascii -> bool) :
  (forall w, matches ic r w -> sforall p w = true) ->
  forall w, matches ic (Star r) w -> sforall p w = true.
Proof.
  intros Hr w H. remember (Star r) as sr eqn:E.
  induction H; try discriminate; [reflexivity|].
  injection E as ->. rewrite sforall_append, (Hr _ H). now apply IHmatches2.
Qed.

Lemma matches_digit ic (w : string) :
  matches ic Digit w -> exists a, w = String a "" /\ isdigit a = true.
Proof.
  unfold Digit. intros H. inversion H as [| | |neg items a Ha| | | | | |]; subst.
  exists a. split; [reflexivity|].
  unfold class_match in Ha. cbn in Ha. now rewrite orb_false_r in Ha.
Qed.

Lemma matches_digits ic (w : string) :
  matches ic (Star Digit) w -> sforall isdigit w = true.
Proof.
  apply matches_star_all. intros u Hu.
  apply matches_digit in Hu as (a & -> & Ha). cbn. now rewrite Ha.
Qed.

(** What [[+-]\d+] matches. *)
Lemma matches_odds (w : string) :
  matches true (Cat (Class false [IChar "+"; IChar "-"]) (Plus Digit)) w ->
  signed_digits w.
Proof.
  intros H. inversion H as [| | | |r1 r2 w1 w2 H1 H2| | | | |]; subst.
  inversion H1 as [| | |neg items a Ha| | | | | |]; subst.
  unfold Plus in H2. inversion H2 as [| | | |r1 r2 u1 u2 Hd Hs| | | | |]; subst.
  apply matches_digit in Hd as (d & -> & Hd). apply matches_digits in Hs.
  exists a, (String d u2). split; [reflexivity|].
  split; [now apply sign_class|]. split; [discriminate|].
  cbn [sforall]. now rewrite Hd, Hs.
Qed.

Lemma signed_digits_chars (w : string) :
  signed_digits w ->
  sforall odds_char w = true /\ sforall (fun a => negb (isspace a)) w = true.
Proof.
  intros (c & t & -> & Hc & _ & Ht). cbn [sforall]. split.
  - replace (odds_char c) with true by (destruct Hc; subst; reflexivity).
    eapply sforall_impl; [|exact Ht].
    intros a Ha. unfold odds_char. now rewrite Ha.
  - replace (isspace c) with false by (destruct Hc; subst; reflexivity).
    eapply sforall_impl; [|exact Ht].
    intros a Ha. now rewrite (isdigit_not_space a Ha).
Qed.

(** The odds read from a text: nothing, or a sign and digits. *)
Lemma extract_odds (text : string) :
  let w := _extract_pattern text (odds_pattern common_patterns) in
  w = ""%string \/ signed_digits w.
Proof.
  cbn zeta. unfold _extract_pattern. cbn [odds_pattern common_patterns].
  destruct (search true _ text) as [g|] eqn:E; [|now left].
  change (ngroups (Group 1 (Cat (Class false [IChar "+"; IChar "-"]) (Plus Digit))))
    with 1%nat.
  unfold groups_tuple. cbn [seq map first_group].
  destruct (g !! 1%nat) as [w|] eqn:Eg; [|now left].
  destruct (truthy w); [|now left].
  destruct (search_sound _ _ _ _ E 1%nat w Eg) as (body & Hb & Hm).
  cbn in Hb. destruct Hb as [<-|[]].
  apply matches_odds in Hm. right.
  rewrite strip_id; [assumption|]. now apply signed_digits_chars.
Qed.

Lemma truthy_empty (s : string) : truthy s = false <-> s = ""%string.
Proof. destruct s; cbn; split; congruence. Qed.

Lemma patterns_common (sb : sportsbook) :
  patterns (sportsbook_patterns sb) = common_patterns.
Proof. now destruct sb. Qed.

(** The record [parse_email] returns is the cleaned extraction of the
    recognised sportsbook, and its stake and odds are not empty. *)
Lemma parse_email_Some today content subject (b : bet_data) :
  parse_email today content subject = Some b ->
  exists sb,
    _identify_sportsbook subject content = Some sb /\
    b = _clean_bet_data (extract_bet_data today sb content) /\
    stake b <> ""%string /\ odds b <> ""%string.
Proof.
  unfold parse_email.
  destruct (_identify_sportsbook subject content) as [sb|]; [|discriminate].
  destruct (_validate_bet_data _) eqn:V; [|discriminate].
  intros [= <-]. exists sb. do 2 (split; [reflexivity|]).
  unfold _validate_bet_data in V. cbn [forallb] in V.
  apply andb_true_iff in V as [V1 V2]. apply andb_true_iff in V2 as [V2 _].
  split; intros E; apply truthy_empty in E; congruence.
Qed.

Lemma parse_email_None today content subject :
  parse_email today content subject = None <->
  _identify_sportsbook subject content = None \/
  exists sb,
    _identify_sportsbook subject content = Some sb /\
    (stake (_clean_bet_data (extract_bet_data today sb content)) = ""%string \/
     odds (_clean_bet_data (extract_bet_data today sb content)) = ""%string).
Proof.
  unfold parse_email.
  destruct (_identify_sportsbook subject content) as [sb|]; [|tauto].
  unfold _validate_bet_data. cbn [forallb]. rewrite andb_true_r.
  set (b := _clean_bet_data (extract_bet_data today sb content)).
  destruct (truthy (stake b)) eqn:Es, (truthy (odds b)) eqn:Eo; cbn [andb].
  - split; [discriminate|].
    intros [H|(sb' & [= <-] & [H|H])]; [discriminate| |];
      apply truthy_empty in H; fold b in H; congruence.
  - split; [|reflexivity]. intros _. right. exists sb.
    split; [reflexivity|]. right. now apply truthy_empty.
  - split; [|reflexivity]. intros _. right. exists sb.
    split; [reflexivity|]. left. now apply truthy_empty.
  - split; [|reflexivity]. intros _. right. exists sb.
    split; [reflexivity|]. left. now apply truthy_empty.
Qed.
(** The cleaned odds: nothing, or a sign and digits. *)
Lemma cleaned_odds today (sb : sportsbook) (content : string) :
  let b := _clean_bet_data (extract_bet_data today sb content) in
  odds b = ""%string \/ signed_digits (odds b).
Proof.
  cbn zeta. unfold extract_bet_data. rewrite patterns_common.
  cbn [_clean_bet_data odds].
  destruct (extract_odds content) as [E|E]; cbn zeta in E.
  - left. now rewrite E.
  - right.
    assert (T : truthy (_extract_pattern content (odds_pattern common_patterns)) = true).
    { destruct E as (c & t & -> & _). reflexivity. }
    rewrite T, sub_not_odds, sfilter_id; [exact E|].
    now apply signed_digits_chars.
Qed.

(** A cleaned amount holds digits and decimal points only. *)
Lemma cleaned_amount (x : string) :
  sforall money_char (if truthy x then sub not_money_char "" x else x) = true.
Proof.
  destruct (truthy x) eqn:T.
  - rewrite sub_not_money. apply sfilter_sforall.
  - apply truthy_empty in T. now rewrite T.
Qed.

(** A cleaned game description has single spaces only, none at an end. *)
Lemma cleaned_game (x : string) :
  let y := if truthy x then strip (sub (Plus Space) " " x) else x in
  single_spaced y = true /\ starts_space y = false /\ ends_space y = false.
Proof.
  cbn zeta. destruct (truthy x) eqn:T.
  - apply strip_tidy, sub_spaces_single.
  - apply truthy_empty in T. rewrite T. repeat split.
Qed.
End Email.

(** ** The email parser: the claims *)

Section EmailClaims.
Import PyStr PyNum PyVal Re EmailParser.

Lemma parse_sample_email :
  parse_email "2026-11-05" sample_email "FanDuel Bet Confirmation" = Some sample_bet.
Proof. vm_compute. reflexivity. Qed.

(** C2: [parse_email] returns [None] exactly when no sportsbook is
    recognised or the stake or the odds is empty after cleaning; any
    other result is the complete cleaned record, whose stake and odds are
    both present. *)
Theorem parse_email_validation :
  (forall today content subject,
     parse_email today content subject = None <->
     _identify_sportsbook subject content = None \/
     exists sb,
       _identify_sportsbook subject content = Some sb /\
       (stake (_clean_bet_data (extract_bet_data today sb content)) = ""%string \/
        odds (_clean_bet_data (extract_bet_data today sb content)) = ""%string)) /\
  (forall today content subject b,
     parse_email today content subject = Some b ->
     exists sb,
       _identify_sportsbook subject content = Some sb /\
       b = _clean_bet_data (extract_bet_data today sb content) /\
       stake b <> ""%string /\ odds b <> ""%string) /\
  parse_email "2026-11-05" sample_email "FanDuel Bet Confirmation" = Some sample_bet /\
  parse_email "2026-11-05" "Your bet is placed: -110, $25.00" "Confirmation" = None /\
  parse_email "2026-11-05" "FanDuel bet confirmation, Odds: -110" "" = None /\
  parse_email "2026-11-05" "FanDuel bet confirmation, Stake: $25.00" "" = None.
Proof.
  split; [exact parse_email_None|].
  split; [exact parse_email_Some|].
  repeat split; vm_compute; reflexivity.
Qed.

Lemma parse_email_validation_witness :
  exists sb,
    _identify_sportsbook "FanDuel Bet Confirmation" sample_email = Some sb /\
    sample_bet = _clean_bet_data (extract_bet_data "2026-11-05" sb sample_email) /\
    stake sample_bet <> ""%string /\ odds sample_bet <> ""%string.
Proof.
  exact (proj1 (proj2 parse_email_validation) "2026-11-05" sample_email
           "FanDuel Bet Confirmation" sample_bet parse_sample_email).
Defined.

(** C7: in every record [parse_email] returns, the odds are a sign
    followed by digits, the stake and the potential payout hold digits
    and decimal points only, and the game description has single spaces
    only, none of them leading or trailing. *)
Theorem parse_email_clean_fields today content subject (b : bet_data) :
  parse_email today content subject = Some b ->
  signed_digits (odds b) /\
  sforall money_char (stake b) = true /\
  sforall money_char (potential_payout b) = true /\
  single_spaced (game_description b) = true /\
  starts_space (game_description b) = false /\
  ends_space (game_description b) = false.
Proof.
  intros H. apply parse_email_Some in H as (sb & _ & -> & _ & Ho).
  split.
  { destruct (cleaned_odds today sb content) as [E|E]; [contradiction | exact E]. }
  cbn [_clean_bet_data stake potential_payout game_description].
  split; [apply cleaned_amount|].
  split; [apply cleaned_amount|].
  apply cleaned_game.
Qed.

Lemma parse_email_clean_fields_witness :
  signed_digits "+150" /\ single_spaced "Celtics @ home tonight" = true.
Proof.
  assert (H : parse_email "2026-11-05" zero_stake_email "" =
              Some {| sportsbook_name := "draftkings"; date := "2026-11-05";
                      sport := "NBA"; bet_type := "";
                      game_description := "Celtics @ home tonight";
                      odds := "+150"; stake := "0"; potential_payout := "0" |})
    by (vm_compute; reflexivity).
  destruct (parse_email_clean_fields _ _ _ _ H) as (Ho & _ & _ & Hg & _).
  exact (conj Ho Hg).
Defined.
End EmailClaims.

(** ** What the records that come out are guaranteed *)

Section Emitted.
Import PyStr PyNum PyVal CsvImporter.

Lemma failure_bets (msg : string) (l : list bet_data) (b : bet_data) :
  failure msg !! "bets" = Some (RBets l) -> In b l -> False.
Proof.
  change (failure msg !! "bets") with (Some (RBets [])).
  intros [= <-] [].
Qed.

Lemma process_csv_reader_bets today (rd : Csv.reader) (l : list bet_data)
    (b : bet_data) :
  _process_csv_reader today rd !! "bets" = Some (RBets l) -> In b l ->
  exists row, In row (Csv.rows rd) /\ _process_row today row = Some b.
Proof.
  destruct (has_required rd) eqn:H.
  - rewrite (process_csv_reader_rows today rd H).
    match goal with |- ?m !! _ = _ -> _ =>
      change (m !! "bets") with
        (Some (RBets (omap (_process_row today) (Csv.rows rd)))) end.
    intros [= <-] Hin. now apply omap_In.
  - rewrite (process_csv_reader_missing today rd H).
    intros Hl Hin. destruct (failure_bets _ _ _ Hl Hin).
Qed.

Lemma import_from_csv_bets quoted_guess today (fs : filesystem) (path : string)
    (l : list bet_data) (b : bet_data) :
  import_from_csv quoted_guess today fs path !! "bets" = Some (RBets l) ->
  In b l ->
  exists row, _process_row today row = Some b.
Proof.
  unfold import_from_csv.
  destruct (fs !! path) as [content|];
    [|intros Hl Hin; destruct (failure_bets _ _ _ Hl Hin)].
  destruct (Csv.sniff _ _) as [delimiter|];
    [|intros Hl Hin; destruct (failure_bets _ _ _ Hl Hin)].
  destruct (Csv.records delimiter content) as [read [e|]].
  - unfold interrupted.
    destruct read as [|header body];
      [intros Hl Hin; destruct (failure_bets _ _ _ Hl Hin)|].
    destruct (missing_columns _);
      [intros Hl Hin; destruct (failure_bets _ _ _ Hl Hin)|].
    intros Hl Hin.
    destruct (process_csv_reader_bets today _ l b Hl Hin) as (row & _ & Hrow).
    eauto.
  - intros Hl Hin.
    destruct (process_csv_reader_bets today _ l b Hl Hin) as (row & _ & Hrow).
    eauto.
Qed.

(** C6 (as amended): every record in the [bets] of [import_from_csv] has
    a stake and a potential payout that are floats comparing unequal to
    zero (a negative amount passes, and so does a NaN), and every record
    [parse_email] returns has a stake made of digits and decimal points
    and odds made of a sign and digits, neither of them empty, and a
    potential payout, possibly empty, made of digits and decimal points. *)
Theorem emitted_records :
  (forall quoted_guess today (fs : filesystem) path l b,
     import_from_csv quoted_guess today fs path !! "bets" = Some (RBets l) ->
     In b l ->
     PrimFloat.eqb (stake b) 0 = false /\
     PrimFloat.eqb (potential_payout b) 0 = false) /\
  (forall today content subject b,
     EmailParser.parse_email today content subject = Some b ->
     EmailParser.stake b <> ""%string /\
     sforall money_char (EmailParser.stake b) = true /\
     EmailParser.odds b <> ""%string /\
     signed_digits (EmailParser.odds b) /\
     sforall money_char (EmailParser.potential_payout b) = true).
Proof.
  split.
  - intros qg today fs path l b Hl Hin.
    destruct (import_from_csv_bets qg today fs path l b Hl Hin) as (row & Hrow).
    destruct (process_row_Some today row b Hrow)
      as (dv & sv & pv & _ & _ & _ & _ & _ & Hs & Hp & _).
    unfold float_truthy in Hs, Hp.
    now apply negb_true_iff in Hs, Hp.
  - intros today content subject b H.
    apply parse_email_Some in H as (sb & _ & -> & Hne & Hno).
    split; [exact Hne|].
    split; [cbn [EmailParser._clean_bet_data EmailParser.stake]; apply cleaned_amount|].
    split; [exact Hno|].
    split; [|cbn [EmailParser._clean_bet_data EmailParser.potential_payout];
             apply cleaned_amount].
    destruct (cleaned_odds today sb content) as [E|E]; [contradiction | exact E].
Qed.

Lemma emitted_records_witness :
  PrimFloat.eqb (-5) 0 = false /\ PrimFloat.eqb (-3) 0 = false.
Proof.
  refine (proj1 emitted_records no_quotes "2026-11-05"
            {[ "bets.csv" := mixed_csv ]} "bets.csv" _
            {| date := "2024-01-18"; bet_type := "total"; sport := "NBA";
               game_description := "Lakers vs Celtics";
               bet_description := "Over 210"; odds := ""; stake := (-5)%float;
               potential_payout := (-3)%float;
               status := "pending"; actual_payout := 0 |} _ _).
  - rewrite import_mixed_csv. reflexivity.
  - right. left. reflexivity.
Defined.

(** Records that do come out: from a CSV row, a negative stake, a
    negative potential payout and no odds; from an email, a stake of zero. *)
Lemma emitted_negative_stake :
  (exists l b,
     import_from_csv no_quotes "2026-11-05" {[ "bets.csv" := mixed_csv ]} "bets.csv"
       !! "bets" = Some (RBets l) /\
     In b l /\
     PrimFloat.ltb 0 (stake b) = false /\
     PrimFloat.leb 0 (potential_payout b) = false /\
     odds b = ""%string) /\
  (exists b,
     EmailParser.parse_email "2026-11-05" zero_stake_email "" = Some b /\
     EmailParser.stake b = "0"%string /\
     option_map (PrimFloat.ltb 0) (PyFloat.float_of_string (EmailParser.stake b))
       = Some false).
Proof.
  split.
  - eexists. eexists. split; [rewrite import_mixed_csv; reflexivity|].
    split; [right; left; reflexivity|].
    repeat split; vm_compute; reflexivity.
  - eexists. split; [vm_compute; reflexivity|].
    split; vm_compute; reflexivity.
Qed.
End Emitted.
